(** * Kando host process: a shallow embedding of [src/main/app.ts]

    The class [KandoApp] owns a backend, a transparent window, one
    hide-timer handle and two settings stores.  Its methods are embedded as
    computations in a state-and-exception monad over the record [App]; every
    call that leaves the class (backend, window, console, shell, timers,
    settings) is recorded, in program order, in the [trace] of the state. *)

From Stdlib Require Import ZArith QArith Qround List String Bool Lia.
From Stdlib Require Import DecimalString.
Import ListNotations.
Local Open Scope string_scope.
Local Open Scope Z_scope.

(** ** JavaScript numbers

    A finite IEEE double is a dyadic rational, so the finite numbers are
    embedded in [Q]; the three non-finite values are kept apart.  The sign of
    zero is not tracked. *)
Module JS.

Inductive number : Type :=
| Fin (q : Q)
| PosInf
| NegInf
| NaN.

(** [Math.floor]: the largest integer not above its argument; non-finite
    values are returned unchanged. *)
Definition Math_floor (x : number) : number :=
  match x with
  | Fin q => Fin (inject_Z (Qfloor q))
  | other => other
  end.

(** Truncation toward zero ([Math.trunc]), which [app.ts] does not call; it
    is the operation the specification names for pointer deltas. *)
Definition Math_trunc (x : number) : number :=
  match x with
  | Fin q => Fin (inject_Z (if Qle_bool 0 q then Qfloor q else Qceiling q))
  | other => other
  end.

(** The template literal [`${i}`] on a non-negative integer. *)
Definition string_of_index (i : nat) : string :=
  NilEmpty.string_of_uint (Nat.to_uint i).

End JS.

(** ** Data of [../common] used by the orchestrator *)

#[warnings="-register-all"]
Inductive INode : Type :=
| Node (name icon iconTheme : string) (children : list INode).

Definition node_name (n : INode) : string :=
  match n with Node nm _ _ _ => nm end.
Definition node_icon (n : INode) : string :=
  match n with Node _ ic _ _ => ic end.
Definition node_iconTheme (n : INode) : string :=
  match n with Node _ _ th _ => th end.
Definition node_children (n : INode) : list INode :=
  match n with Node _ _ _ cs => cs end.

Definition set_children (n : INode) (cs : list INode) : INode :=
  match n with Node nm ic th _ => Node nm ic th cs end.

Record IMenu : Type := mkMenu {
  nodes : INode;
  shortcut : string;
  centered : bool
}.

Record Rectangle : Type := mkRect {
  rx : Z;
  ry : Z;
  rwidth : Z;
  rheight : Z
}.

Record Point : Type := mkPoint { px : Z; py : Z }.

Record Display : Type := mkDisplay { workArea : Rectangle }.

(** The snapshot resolved by [backend.getWMInfo()]; [windowClass] is
    [None] for a falsy value (undefined or the empty string). *)
Record WMInfo : Type := mkWMInfo {
  pointerX : Z;
  pointerY : Z;
  windowClass : option string
}.

(** The payload of the [move-pointer] message. *)
Record Dist : Type := mkDist { dist_x : JS.number; dist_y : JS.number }.

(** ** The example menu of [createExampleMenu] *)

Definition CHILDREN_PER_LEVEL : list nat := [8; 7; 7]%nat.

Definition TEST_ICONS : list string :=
  [ "play_circle"; "public"; "arrow_circle_right"; "terminal";
    "settings"; "apps"; "arrow_circle_left"; "fullscreen" ].

(** The node built in the body of the [for] loop, before its own children
    are added. *)
Definition child_node (parent_name : string) (i : nat) : INode :=
  Node (parent_name ++ " " ++ JS.string_of_index i)
       (nth (i mod List.length TEST_ICONS) TEST_ICONS "")
       "material-symbols-rounded"
       [].

(** [addChildren] recurses while [level < CHILDREN_PER_LEVEL.length]; the
    recursion is written on the levels that remain from [level] on. *)
Fixpoint addChildren_levels (remaining : list nat) (parent : INode) : INode :=
  match remaining with
  | [] => parent
  | count :: deeper =>
      set_children parent
        (map (fun i => addChildren_levels deeper (child_node (node_name parent) i))
             (seq 0 count))
  end.

Definition addChildren (parent : INode) (level : nat) : INode :=
  addChildren_levels (skipn level CHILDREN_PER_LEVEL) parent.

Definition example_root : INode :=
  Node "Node" "open_with" "material-symbols-rounded" [].

Definition createExampleMenu : IMenu :=
  mkMenu (addChildren example_root 0) "Control+Space" false.

(** ** The world around the class

    Everything [app.ts] calls but does not define is either recorded as an
    [Effect] or, where the orchestrator reads a result, supplied by the
    records [Backend] and [Env]. *)

(** How a promise of an external call settles. *)
Inductive Outcome (A : Type) : Type :=
| Fulfilled (value : A)
| Rejected (reason : string).
Arguments Fulfilled {A} value.
Arguments Rejected {A} reason.

(** The part of a [Backend] instance the orchestrator observes.  The result
    of [getWMInfo] differs from call to call and is supplied when the promise
    settles (see [showMenu_settled]). *)
Record Backend : Type := mkBackend {
  getWindowType : string;
  backend_init : Outcome unit;
  bindShortcut : Outcome unit
}.

Record Env : Type := mkEnv {
  getPrimaryDisplay : Display;
  getDisplayNearestPoint : Point -> Display;
  loadURL : Outcome unit
}.

(** The key sequence of [simulate-keys] is opaque to the orchestrator. *)
Definition KeySequence : Type := string.

Inductive TimerCallback : Type :=
| HideCallback    (* () => { this.window.hide(); this.hideTimeout = null; } *)
| FocusCallback.  (* () => { this.window.focus(); } *)

Record Timer : Type := mkTimer {
  timer_id : nat;
  timer_callback : TimerCallback;
  timer_deadline : Z
}.

Inductive Effect : Type :=
| BackendInit
| BackendGetWindowType
| BackendGetWMInfo
| BackendBindShortcut (id description accelerator : string)
| BackendUnbindAllShortcuts
| BackendSimulateKeys (keys : KeySequence)
| BackendMovePointer (dx dy : JS.number)
| ScreenGetPrimaryDisplay
| ScreenGetDisplayNearestPoint (p : Point)
| NewBrowserWindow (r : Rectangle) (type : string)
| WindowLoadURL
| WindowSetBounds (r : Rectangle)
| WindowSendShowMenu (root : INode) (pointer : Point)
| WindowShow
| WindowHide
| WindowFocus
| WindowOpenDevTools
| ConsoleLog (message : string)
| ConsoleError (message : string)
| ShellOpenExternal (uri : string)
| SetTimeout (id : nat) (callback : TimerCallback) (delay : Z)
| ClearTimeout (id : nat)
| SettingsGetMenus
| SettingsSetMenus (menus : list IMenu)
| SettingsOnChange (store key : string)
| SettingsClose (store : string)
| IpcMainOn (channel : string)
| NewTray
| TraySetToolTip (tip : string)
| MenuBuildFromTemplate (labels : list string)
| TraySetContextMenu.

Record BrowserWindow : Type := mkWindow {
  bounds : Rectangle;
  visible : bool;
  window_type : string
}.

(** The fields of [KandoApp], the pending timers of the event loop with its
    clock, and the trace of effects. *)
Record App : Type := mkApp {
  backend : option Backend;          (* null when getBackend() found none *)
  window : option BrowserWindow;     (* undefined until initWindow has run *)
  hideTimeout : option nat;          (* undefined / null, or a timer handle *)
  tray : bool;
  menus : list IMenu;                (* the 'menus' key of menuSettings *)
  env : Env;
  timers : list Timer;
  next_timer : nat;
  now : Z;
  trace : list Effect
}.

Definition with_window (w : option BrowserWindow) (a : App) : App :=
  mkApp (backend a) w (hideTimeout a) (tray a) (menus a) (env a)
        (timers a) (next_timer a) (now a) (trace a).
Definition with_hideTimeout (h : option nat) (a : App) : App :=
  mkApp (backend a) (window a) h (tray a) (menus a) (env a)
        (timers a) (next_timer a) (now a) (trace a).
Definition with_tray (t : bool) (a : App) : App :=
  mkApp (backend a) (window a) (hideTimeout a) t (menus a) (env a)
        (timers a) (next_timer a) (now a) (trace a).
Definition with_menus (ms : list IMenu) (a : App) : App :=
  mkApp (backend a) (window a) (hideTimeout a) (tray a) ms (env a)
        (timers a) (next_timer a) (now a) (trace a).
Definition with_timers (ts : list Timer) (n : nat) (a : App) : App :=
  mkApp (backend a) (window a) (hideTimeout a) (tray a) (menus a) (env a)
        ts n (now a) (trace a).
Definition with_now (t : Z) (a : App) : App :=
  mkApp (backend a) (window a) (hideTimeout a) (tray a) (menus a) (env a)
        (timers a) (next_timer a) t (trace a).
Definition with_trace (tr : list Effect) (a : App) : App :=
  mkApp (backend a) (window a) (hideTimeout a) (tray a) (menus a) (env a)
        (timers a) (next_timer a) (now a) tr.

(** ** State and exceptions *)

Inductive Result (A : Type) : Type :=
| Ok (value : A)
| Throw (error : string).
Arguments Ok {A} value.
Arguments Throw {A} error.

Definition M (A : Type) : Type := App -> Result A * App.

Definition ret {A} (x : A) : M A := fun a => (Ok x, a).
Definition throw {A} (e : string) : M A := fun a => (Throw e, a).
Definition bind {A B} (c : M A) (k : A -> M B) : M B :=
  fun a =>
    match c a with
    | (Ok x, a') => k x a'
    | (Throw e, a') => (Throw e, a')
    end.
Definition try_catch {A} (c : M A) (handler : string -> M A) : M A :=
  fun a =>
    match c a with
    | (Ok x, a') => (Ok x, a')
    | (Throw e, a') => handler e a'
    end.

Declare Scope app_scope.
Delimit Scope app_scope with app.
Notation "x <- c ;; k" := (bind c (fun x => k))
  (at level 61, c at next level, right associativity) : app_scope.
Notation "c ;; k" := (bind c (fun _ => k))
  (at level 61, right associativity) : app_scope.
Local Open Scope app_scope.

Definition read {A} (f : App -> A) : M A := fun a => (Ok (f a), a).
Definition modify (f : App -> App) : M unit := fun a => (Ok tt, f a).
Definition emit (e : Effect) : M unit :=
  modify (fun a => with_trace (trace a ++ [e]) a).
Definition when (b : bool) (c : M unit) : M unit :=
  if b then c else ret tt.

(** Awaiting a promise: a rejection is rethrown. *)
Definition await {A} (o : Outcome A) : M A :=
  match o with
  | Fulfilled v => ret v
  | Rejected r => throw r
  end.

Definition exec {A} (c : M A) (a : App) : App := snd (c a).
Definition outcome_of {A} (c : M A) (a : App) : Result A := fst (c a).

(** ** Runtime services *)

Definition type_error (of_value property : string) : string :=
  "TypeError: Cannot read properties of " ++ of_value ++
  " (reading '" ++ property ++ "')".

(** The timer delay as the runtime takes it: anything outside
    [1 .. 2^31 - 1] milliseconds becomes 1. *)
Definition timeout_after (delay : Z) : Z :=
  if (1 <=? delay) && (delay <=? 2147483647) then delay else 1.

(** [setTimeout(callback, delay)]: a fresh handle, pending in the loop. *)
Definition setTimeout (callback : TimerCallback) (delay : Z) : M nat :=
  fun a =>
    let id := next_timer a in
    let t := mkTimer id callback (now a + timeout_after delay) in
    (Ok id,
     with_trace (trace a ++ [SetTimeout id callback delay])
       (with_timers (timers a ++ [t]) (S id) a)).

Definition cancel (id : nat) (ts : list Timer) : list Timer :=
  filter (fun t => negb (Nat.eqb (timer_id t) id)) ts.

(** [clearTimeout(handle)]: the timer is removed if it is still pending;
    the handle itself is not changed. *)
Definition clearTimeout (id : nat) : M unit :=
  emit (ClearTimeout id) ;;
  modify (fun a => with_timers (cancel id (timers a)) (next_timer a) a).

(** [this.window.<method>]: a TypeError while the field is undefined. *)
Definition this_window (method : string) : M BrowserWindow :=
  fun a =>
    match window a with
    | Some w => (Ok w, a)
    | None => (Throw (type_error "undefined" method), a)
    end.

Definition this_backend (method : string) : M Backend :=
  fun a =>
    match backend a with
    | Some b => (Ok b, a)
    | None => (Throw (type_error "null" method), a)
    end.

Definition window_setBounds (r : Rectangle) : M unit :=
  w <- this_window "setBounds" ;;
  emit (WindowSetBounds r) ;;
  modify (with_window (Some (mkWindow r (visible w) (window_type w)))).

Definition window_show : M unit :=
  w <- this_window "show" ;;
  emit WindowShow ;;
  modify (with_window (Some (mkWindow (bounds w) true (window_type w)))).

Definition window_hide : M unit :=
  w <- this_window "hide" ;;
  emit WindowHide ;;
  modify (with_window (Some (mkWindow (bounds w) false (window_type w)))).

Definition window_focus : M unit :=
  _ <- this_window "focus" ;;
  emit WindowFocus.

Definition window_send_show_menu (root : INode) (pointer : Point) : M unit :=
  _ <- this_window "webContents" ;;
  emit (WindowSendShowMenu root pointer).

Definition window_openDevTools : M unit :=
  _ <- this_window "webContents" ;;
  emit WindowOpenDevTools.

(** Modelled from the spec: the [Settings] class of [./settings], whose
    source is not part of this development.  [get('menus')] returns the
    stored list and [set({menus})] replaces it, visible to the next [get]. *)
Definition menuSettings_get_menus : M (list IMenu) :=
  emit SettingsGetMenus ;;
  read menus.

Definition menuSettings_set_menus (ms : list IMenu) : M unit :=
  emit (SettingsSetMenus ms) ;;
  modify (with_menus ms).

(** ** [KandoApp.showMenu] *)

(** The synchronous part: the query is sent to the backend. *)
Definition showMenu : M unit :=
  _ <- this_backend "getWMInfo" ;;
  emit BackendGetWMInfo.

(** The callback given to [.then]. *)
Definition showMenu_then (info : WMInfo) : M unit :=
  (* Abort any ongoing hide animation. *)
  h <- read hideTimeout ;;
  match h with
  | Some id => clearTimeout id
  | None => ret tt
  end ;;
  (* Move the window to the monitor which contains the pointer. *)
  let p := mkPoint (pointerX info) (pointerY info) in
  emit (ScreenGetDisplayNearestPoint p) ;;
  e <- read env ;;
  let workarea := workArea (getDisplayNearestPoint e p) in
  window_setBounds
    (mkRect (rx workarea) (ry workarea)
            (rwidth workarea + 1) (rheight workarea + 1)) ;;
  match windowClass info with
  | Some c => emit (ConsoleLog ("Currently focused window: " ++ c))
  | None => emit (ConsoleLog "Currently no window is focused.")
  end ;;
  ms <- menuSettings_get_menus ;;
  _ <- this_window "webContents" ;;
  match ms with
  | menu :: _ =>
      window_send_show_menu (nodes menu)
        (mkPoint (pointerX info - rx workarea) (pointerY info - ry workarea))
  | [] => throw (type_error "undefined" "nodes")
  end ;;
  window_show ;;
  _ <- setTimeout FocusCallback 100 ;;
  ret tt.

(** The callback given to [.catch]. *)
Definition showMenu_catch (err : string) : M unit :=
  emit (ConsoleError ("Failed to show menu: " ++ err)).

(** The promise chain [getWMInfo().then(...).catch(...)] once the query has
    settled. *)
Definition showMenu_settled (o : Outcome WMInfo) : M unit :=
  match o with
  | Fulfilled info => try_catch (showMenu_then info) showMenu_catch
  | Rejected reason => showMenu_catch reason
  end.

(** ** [KandoApp.initRendererIPC]: the handlers for the renderer's messages *)

Inductive IpcMessage : Type :=
| show_dev_tools
| hide_window (delay : Z)
| log (message : string)
| simulate_keys (keys : KeySequence)
| move_pointer (dist : Dist)
| open_uri (uri : string).

Definition ipc_handler (m : IpcMessage) : M unit :=
  match m with
  | show_dev_tools => window_openDevTools
  | hide_window delay =>
      id <- setTimeout HideCallback delay ;;
      modify (with_hideTimeout (Some id))
  | log message => emit (ConsoleLog message)
  | simulate_keys keys =>
      window_hide ;;
      _ <- this_backend "simulateKeys" ;;
      emit (BackendSimulateKeys keys)
  | move_pointer dist =>
      _ <- this_backend "movePointer" ;;
      emit (BackendMovePointer (JS.Math_floor (dist_x dist))
                               (JS.Math_floor (dist_y dist)))
  | open_uri uri =>
      window_hide ;;
      emit (ShellOpenExternal uri)
  end.

Definition ipc_channels : list string :=
  [ "show-dev-tools"; "hide-window"; "log"; "simulate-keys";
    "move-pointer"; "open-uri" ].

Definition initRendererIPC : M unit :=
  fold_right (fun c k => emit (IpcMainOn c) ;; k) (ret tt) ipc_channels.

(** ** The event loop's timers *)

Definition run_callback (c : TimerCallback) : M unit :=
  match c with
  | HideCallback =>
      window_hide ;;
      modify (with_hideTimeout None)
  | FocusCallback => window_focus
  end.

Definition find_timer (id : nat) (ts : list Timer) : option Timer :=
  find (fun t => Nat.eqb (timer_id t) id) ts.

(** A pending timer whose deadline has passed leaves the loop and its
    callback runs; any other handle does nothing. *)
Definition fire_timer (id : nat) : M unit :=
  ts <- read timers ;;
  t_now <- read now ;;
  match find_timer id ts with
  | Some t =>
      if timer_deadline t <=? t_now then
        modify (fun a => with_timers (cancel id (timers a)) (next_timer a) a) ;;
        run_callback (timer_callback t)
      else ret tt
  | None => ret tt
  end.

Definition elapse (dt : Z) : M unit :=
  modify (fun a => with_now (now a + Z.max 0 dt) a).

(** ** [KandoApp.initWindow], [KandoApp.init] and [KandoApp.quit] *)

Definition initWindow : M unit :=
  emit ScreenGetPrimaryDisplay ;;
  e <- read env ;;
  let area := workArea (getPrimaryDisplay e) in
  b <- this_backend "getWindowType" ;;
  emit BackendGetWindowType ;;
  let r := mkRect (rx area) (ry area) (rwidth area + 1) (rheight area + 1) in
  emit (NewBrowserWindow r (getWindowType b)) ;;
  emit WindowLoadURL ;;
  await (loadURL e) ;;
  modify (with_window (Some (mkWindow r false (getWindowType b)))).

Definition init : M unit :=
  b <- read backend ;;
  match b with
  | None => throw "Error: No backend found."
  | Some bk =>
      ms <- menuSettings_get_menus ;;
      when (Nat.eqb (List.length ms) 0)
           (menuSettings_set_menus [createExampleMenu]) ;;
      emit (SettingsOnChange "config.json" "menuTheme") ;;
      emit (SettingsOnChange "config.json" "editorTheme") ;;
      (* Initialize the backend, the window and the IPC communication. *)
      emit BackendInit ;;
      await (backend_init bk) ;;
      initWindow ;;
      initRendererIPC ;;
      (* Add a tray icon to the system tray. *)
      emit NewTray ;;
      modify (with_tray true) ;;
      emit (TraySetToolTip "Kando") ;;
      emit (MenuBuildFromTemplate ["Open (Control + Space)"; "Quit"]) ;;
      emit TraySetContextMenu ;;
      (* Bind the shortcut which opens the pie menu. *)
      emit (BackendBindShortcut "prototype_trigger"
              "Trigger the Kando prototype" "CommandOrControl+Space") ;;
      await (bindShortcut bk)
  end.

(** [unbound] is how the promise of [unbindAllShortcuts] settles, should
    it be called. *)
Definition quit (unbound : Outcome unit) : M unit :=
  b <- read backend ;;
  match b with
  | Some _ =>
      emit BackendUnbindAllShortcuts ;;
      await unbound
  | None => ret tt
  end ;;
  emit (SettingsClose "config.json") ;;
  emit (SettingsClose "menus.json").

(** ** Events reaching the orchestrator *)

Inductive Event : Type :=
| RequestShow                        (* the shortcut or the tray entry *)
| WMInfoSettled (o : Outcome WMInfo) (* a getWMInfo promise settles *)
| Ipc (m : IpcMessage)               (* a message of the renderer *)
| TimerFires (id : nat)
| Elapse (dt : Z).

Definition handle (ev : Event) : M unit :=
  match ev with
  | RequestShow => showMenu
  | WMInfoSettled o => showMenu_settled o
  | Ipc m => ipc_handler m
  | TimerFires id => fire_timer id
  | Elapse dt => elapse dt
  end.

(** Events are handled one after the other on the single loop; an exception
    that escapes a handler ends that handler only. *)
Definition run (evs : list Event) (a : App) : App :=
  fold_left (fun st ev => exec (handle ev) st) evs a.

(** ** Observations *)

Definition is_hide_timer (t : Timer) : bool :=
  match timer_callback t with
  | HideCallback => true
  | FocusCallback => false
  end.

(** The hide timers that are armed and have neither fired nor been
    canceled. *)
Definition pending_hide_timers (a : App) : list Timer :=
  filter is_hide_timer (timers a).

Definition timer_pending (id : nat) (a : App) : bool :=
  existsb (fun t => Nat.eqb (timer_id t) id) (timers a).

Definition is_visible (a : App) : bool :=
  match window a with
  | Some w => visible w
  | None => false
  end.

Definition is_show_menu (e : Effect) : bool :=
  match e with
  | WindowSendShowMenu _ _ => true
  | _ => false
  end.

(** A freshly constructed [KandoApp]: the field initialisers have run and
    nothing else. *)
Definition new_app (b : option Backend) (stored : list IMenu) (e : Env) : App :=
  mkApp b None None false stored e [] 0 0 [].

(** A single display with the given work area. *)
Definition single_display (area : Rectangle) : Env :=
  mkEnv (mkDisplay area) (fun _ => mkDisplay area) (Fulfilled tt).

Definition ready_backend : Backend :=
  mkBackend "dock" (Fulfilled tt) (Fulfilled tt).

Definition full_hd : Rectangle := mkRect 0 0 1920 1080.

(** The application after a successful [init] on one full-HD display. *)
Definition started : App :=
  exec init (new_app (Some ready_backend) [] (single_display full_hd)).

(** The menu is on screen: a show request whose query resolved with the
    pointer at (100, 50) and no focused window. *)
Definition shown : App :=
  run [RequestShow; WMInfoSettled (Fulfilled (mkWMInfo 100 50 None))] started.

Definition hidden (w : BrowserWindow) : BrowserWindow :=
  mkWindow (bounds w) false (window_type w).

(** The pieces of a show transition, named for the statements below. *)

Definition pointer_of (info : WMInfo) : Point :=
  mkPoint (pointerX info) (pointerY info).

(** The work area of the display nearest to the pointer. *)
Definition target_area (a : App) (info : WMInfo) : Rectangle :=
  workArea (getDisplayNearestPoint (env a) (pointer_of info)).

Definition expanded (area : Rectangle) : Rectangle :=
  mkRect (rx area) (ry area) (rwidth area + 1) (rheight area + 1).

Definition relative_to (area : Rectangle) (p : Point) : Point :=
  mkPoint (px p - rx area) (py p - ry area).

(** What the first statement of the [.then] callback does to the timers. *)
Definition preempt_effects (a : App) : list Effect :=
  match hideTimeout a with
  | Some id => [ClearTimeout id]
  | None => []
  end.

Definition preempt_timers (a : App) : list Timer :=
  match hideTimeout a with
  | Some id => cancel id (timers a)
  | None => timers a
  end.

Definition focus_message (info : WMInfo) : string :=
  match windowClass info with
  | Some c => "Currently focused window: " ++ c
  | None => "Currently no window is focused."
  end.

(** The renderer asks twice to hide before the menu is requested again. *)
Definition hide_twice : list Event :=
  [Ipc (hide_window 100); Ipc (hide_window 200)].

Definition hide_twice_then_show : list Event :=
  hide_twice ++
  [RequestShow; WMInfoSettled (Fulfilled (mkWMInfo 100 50 None))].

(** The two action messages that hide the window themselves. *)
Definition hides_directly (m : IpcMessage) : bool :=
  match m with
  | simulate_keys _ | open_uri _ => true
  | _ => false
  end.


(** The discipline of the timer bookkeeping, on the three fields it
    involves: handles are unique and below the next one to be issued, and
    the handle field tracks the pending hide timers. *)
Definition timers_ok (ts : list Timer) (n : nat) (h : option nat) : Prop :=
  NoDup (map timer_id ts)
  /\ (forall t, In t ts -> (timer_id t < n)%nat)
  /\ (forall t, In t (filter is_hide_timer ts) -> h = Some (timer_id t)).

Definition timers_invariant (a : App) : Prop :=
  timers_ok (timers a) (next_timer a) (hideTimeout a).

(** A renderer that asks to hide only while no hide is already scheduled. *)
Definition hides_once (ev : Event) (a : App) : Prop :=
  match ev with
  | Ipc (hide_window _) => pending_hide_timers a = []
  | _ => True
  end.

Fixpoint hides_once_all (evs : list Event) (a : App) : Prop :=
  match evs with
  | [] => True
  | ev :: rest => hides_once ev a /\ hides_once_all rest (exec (handle ev) a)
  end.

(** A session in which every hide is over, or preempted by a show, before
    the next one is requested. *)
Definition hide_and_show_again : list Event :=
  [ Ipc (hide_window 150);
    RequestShow; WMInfoSettled (Fulfilled (mkWMInfo 640 480 (Some "kitty")));
    Ipc (move_pointer (mkDist (JS.Fin (-7 # 2)) (JS.Fin (1 # 4))));
    Ipc (hide_window 150); Elapse 200; TimerFires 3;
    RequestShow; WMInfoSettled (Rejected "Error: no compositor");
    RequestShow; WMInfoSettled (Fulfilled (mkWMInfo 10 10 None));
    Ipc (simulate_keys "ctrl+c"); Ipc (hide_window 0) ].

(** ** Measures on menu trees *)

Fixpoint node_count (n : INode) : nat :=
  match n with
  | Node _ _ _ cs => S (list_sum (map node_count cs))
  end.


(** All nodes below a node, parents before their children. *)
Fixpoint descendants (n : INode) : list INode :=
  match n with
  | Node _ _ _ cs => flat_map (fun c => c :: descendants c) cs
  end.

(** The number of nodes a fan-out table puts below a root. *)
Fixpoint nodes_below (levels : list nat) : nat :=
  match levels with
  | [] => 0%nat
  | count :: deeper => (count * S (nodes_below deeper))%nat
  end.

Definition has_prefix (p s : string) : Prop :=
  exists suffix, s = p ++ suffix.

(** ** The effects of [init], stage by stage *)

(** The menu list after the first-run check. *)
Definition seeded (stored : list IMenu) : list IMenu :=
  match stored with
  | [] => [createExampleMenu]
  | _ => stored
  end.

(** Up to and including the call of [backend.init()]. *)
Definition settings_stage (stored : list IMenu) : list Effect :=
  (SettingsGetMenus ::
   match stored with
   | [] => [SettingsSetMenus [createExampleMenu]]
   | _ => []
   end ++
   [ SettingsOnChange "config.json" "menuTheme";
     SettingsOnChange "config.json" "editorTheme";
     BackendInit ])%list.

(** [initWindow], up to and including the call of [loadURL]. *)
Definition window_stage (e : Env) (bk : Backend) : list Effect :=
  [ ScreenGetPrimaryDisplay;
    BackendGetWindowType;
    NewBrowserWindow (expanded (workArea (getPrimaryDisplay e)))
                     (getWindowType bk);
    WindowLoadURL ].

(** [initRendererIPC], the tray and the call of [bindShortcut]. *)
Definition ipc_and_tray_stage : list Effect :=
  (map IpcMainOn ipc_channels ++
   [ NewTray;
     TraySetToolTip "Kando";
     MenuBuildFromTemplate ["Open (Control + Space)"; "Quit"];
     TraySetContextMenu;
     BackendBindShortcut "prototype_trigger" "Trigger the Kando prototype"
                         "CommandOrControl+Space" ])%list.

(** The window [initWindow] stores in the field. *)
Definition initial_window (e : Env) (bk : Backend) : BrowserWindow :=
  mkWindow (expanded (workArea (getPrimaryDisplay e))) false (getWindowType bk).

(** ** Timer handles *)

(** Every pending timer was issued before the next handle. *)
Definition timers_fresh (a : App) : Prop :=
  forall t, In t (timers a) -> (timer_id t < next_timer a)%nat.

(** What holds of the handles whatever the renderer does: they are unique
    and already issued, and the handle field, if it still refers to a
    pending timer, refers to a hide timer. *)
Definition handles_ok (ts : list Timer) (n : nat) (h : option nat) : Prop :=
  NoDup (map timer_id ts)
  /\ (forall t, In t ts -> (timer_id t < n)%nat)
  /\ (forall id, h = Some id -> (id < n)%nat)
  /\ (forall t, In t ts -> h = Some (timer_id t) ->
                timer_callback t = HideCallback).

Definition handles_invariant (a : App) : Prop :=
  handles_ok (timers a) (next_timer a) (hideTimeout a).

Definition hide_requests (delays : list Z) : list Event :=
  map (fun d => Ipc (hide_window d)) delays.

(** * Properties *)

(** Runs a handler symbolically: everything is unfolded except arithmetic,
    concatenation and the operations on the timer list. *)
Ltac run_app :=
  cbv -[Z.add Z.sub Z.leb Z.max app String.append cancel find_timer
        timeout_after createExampleMenu timers_ok filter In is_hide_timer
        handles_ok];
  repeat rewrite <- app_assoc.

(** ** The example menu *)

(** [addChildren] as the source writes it: nothing happens once [level]
    has reached the length of [CHILDREN_PER_LEVEL]; below it the children
    are rebuilt, each one filled at [level + 1]. *)
Lemma addChildren_unfold (parent : INode) (level : nat) :
  addChildren parent level =
  match nth_error CHILDREN_PER_LEVEL level with
  | Some count =>
      set_children parent
        (map (fun i => addChildren (child_node (node_name parent) i) (level + 1))
             (seq 0 count))
  | None => parent
  end.
Proof.
  unfold addChildren.
  assert (step : forall (l : list nat) (n : nat),
             skipn n l = match nth_error l n with
                         | Some c => c :: skipn (n + 1) l
                         | None => []
                         end).
  { induction l as [|c l IH]; intros [|n]; simpl; try reflexivity.
    apply IH. }
  rewrite (step CHILDREN_PER_LEVEL level).
  destruct (nth_error CHILDREN_PER_LEVEL level); reflexivity.
Qed.

Lemma example_root_children :
  map node_name (node_children (nodes createExampleMenu)) =
  [ "Node 0"; "Node 1"; "Node 2"; "Node 3";
    "Node 4"; "Node 5"; "Node 6"; "Node 7" ].
Proof. reflexivity. Qed.

(** ** Pointer deltas *)

Lemma Math_floor_bounds (q : Q) :
  (inject_Z (Qfloor q) <= q < inject_Z (Qfloor q) + 1)%Q.
Proof.
  split.
  - apply Qfloor_le.
  - pose proof (Qlt_floor q) as H.
    rewrite inject_Z_plus in H. exact H.
Qed.

Lemma Math_floor_trunc_nonneg (q : Q) :
  (0 <= q)%Q -> JS.Math_floor (JS.Fin q) = JS.Math_trunc (JS.Fin q).
Proof.
  intros H. unfold JS.Math_floor, JS.Math_trunc.
  apply Qle_bool_iff in H. rewrite H. reflexivity.
Qed.

(** C1, as the code has it: the [move-pointer] handler passes the floor of
    each finite delta to [backend.movePointer], i.e. the largest integer not
    above the delta; for a delta that is not negative this is the truncation
    toward zero. *)
Theorem move_pointer_floors_deltas (a : App) (b : Backend) (x y : Q) :
  backend a = Some b ->
  exec (ipc_handler (move_pointer (mkDist (JS.Fin x) (JS.Fin y)))) a =
    with_trace
      (trace a ++ [BackendMovePointer (JS.Fin (inject_Z (Qfloor x)))
                                      (JS.Fin (inject_Z (Qfloor y)))]) a
  /\ (inject_Z (Qfloor x) <= x < inject_Z (Qfloor x) + 1)%Q
  /\ (inject_Z (Qfloor y) <= y < inject_Z (Qfloor y) + 1)%Q
  /\ ((0 <= x)%Q -> JS.Math_floor (JS.Fin x) = JS.Math_trunc (JS.Fin x))
  /\ ((0 <= y)%Q -> JS.Math_floor (JS.Fin y) = JS.Math_trunc (JS.Fin y)).
Proof.
  intros Hb. repeat split;
    try apply Math_floor_bounds; try apply Math_floor_trunc_nonneg.
  unfold exec, ipc_handler, bind, this_backend, emit, modify.
  rewrite Hb. reflexivity.
Qed.

Lemma move_pointer_floors_deltas_witness :
  backend started = Some ready_backend
  /\ trace (exec (ipc_handler
                    (move_pointer (mkDist (JS.Fin (29 # 10)) (JS.Fin (-29 # 10)))))
                 started)
     = (trace started ++
        [BackendMovePointer (JS.Fin (2 # 1)) (JS.Fin (-3 # 1))])%list.
Proof.
  split; [reflexivity|].
  destruct (move_pointer_floors_deltas started ready_backend (29 # 10) (-29 # 10)
              eq_refl) as [H _].
  rewrite H. reflexivity.
Defined.

(** C1, as the specification states it, fails: for the deltas (2.9, -2.9)
    the backend is not called with the truncated pair (2, -2). *)
Lemma move_pointer_not_truncated :
  let d := mkDist (JS.Fin (29 # 10)) (JS.Fin (-29 # 10)) in
  trace (exec (ipc_handler (move_pointer d)) started)
  <> (trace started ++ [BackendMovePointer (JS.Math_trunc (dist_x d))
                                           (JS.Math_trunc (dist_y d))])%list.
Proof.
  intros d H. vm_compute in H. discriminate H.
Qed.

(** ** A rejected window-manager query *)

(** C3: when the promise of [getWMInfo] rejects, the chain only logs the
    rejection: window, timers and timer handle are as before, the trace
    grows by the single [console.error] (so no show-menu message is sent and
    no timer is armed), and the handler returns normally.  The call of
    [showMenu] that started the query, a backend being there, did nothing
    but send it and returned normally as well. *)
Theorem showMenu_rejected_aborts (a : App) (reason : string) :
  (let a' := exec (showMenu_settled (Rejected reason)) a in
   window a' = window a
   /\ timers a' = timers a
   /\ hideTimeout a' = hideTimeout a
   /\ next_timer a' = next_timer a
   /\ trace a' = (trace a ++ [ConsoleError ("Failed to show menu: " ++ reason)])%list
   /\ filter is_show_menu (trace a') = filter is_show_menu (trace a)
   /\ outcome_of (showMenu_settled (Rejected reason)) a = Ok tt)
  /\ (backend a <> None ->
      showMenu a = (Ok tt, with_trace (trace a ++ [BackendGetWMInfo]) a)).
Proof.
  split.
  - cbv zeta. unfold showMenu_settled, showMenu_catch, emit, modify, exec,
      outcome_of, with_trace.
    cbn [fst snd window timers hideTimeout next_timer trace].
    repeat split.
    rewrite filter_app. cbn [filter is_show_menu]. apply app_nil_r.
  - intros Hb. unfold showMenu, bind, this_backend.
    destruct (backend a); [reflexivity | contradiction].
Qed.

Lemma showMenu_rejected_aborts_witness :
  backend shown <> None
  /\ showMenu shown = (Ok tt, with_trace (trace shown ++ [BackendGetWMInfo]) shown)
  /\ timers (exec (showMenu_settled (Rejected "Error: no compositor")) shown)
     = timers shown.
Proof.
  assert (Hb : backend shown <> None) by (intros H; vm_compute in H; discriminate H).
  destruct (showMenu_rejected_aborts shown "Error: no compositor")
    as [[_ [H1 _]] H2].
  split; [exact Hb|]. split; [exact (H2 Hb) | exact H1].
Defined.

(** ** Startup without a backend *)

(** C9: with a null backend [init] throws at once; the state, trace
    included, is exactly the one it was called in. *)
Theorem init_without_backend_throws (a : App) :
  backend a = None ->
  init a = (Throw "Error: No backend found.", a).
Proof.
  intros Hb. unfold init, bind, read, throw. rewrite Hb. reflexivity.
Qed.

Lemma init_without_backend_throws_witness :
  init (new_app None [] (single_display full_hd))
  = (Throw "Error: No backend found.", new_app None [] (single_display full_hd)).
Proof.
  apply (init_without_backend_throws (new_app None [] (single_display full_hd))).
  reflexivity.
Defined.

(** ** Action messages *)

Lemma simulate_keys_exec (a : App) (w : BrowserWindow) (b : Backend)
      (keys : KeySequence) :
  window a = Some w -> backend a = Some b ->
  exec (ipc_handler (simulate_keys keys)) a =
    with_trace (trace a ++ [WindowHide; BackendSimulateKeys keys])
      (with_window (Some (hidden w)) a).
Proof.
  intros Hw Hb. destruct a; simpl in Hw, Hb; subst.
  unfold exec; cbn. rewrite <- app_assoc. reflexivity.
Qed.

Lemma open_uri_exec (a : App) (w : BrowserWindow) (uri : string) :
  window a = Some w ->
  exec (ipc_handler (open_uri uri)) a =
    with_trace (trace a ++ [WindowHide; ShellOpenExternal uri])
      (with_window (Some (hidden w)) a).
Proof.
  intros Hw. destruct a; simpl in Hw; subst.
  unfold exec; cbn. rewrite <- app_assoc. reflexivity.
Qed.

Lemma move_pointer_window (a : App) (d : Dist) :
  window (exec (ipc_handler (move_pointer d)) a) = window a.
Proof.
  destruct a as [[b|] w h t ms e ts n c tr]; reflexivity.
Qed.

(** C8: [simulate-keys] and [open-uri] call [window.hide()] directly,
    before relaying, and arm no timer; [move-pointer] leaves the window,
    and so its visibility, as it was. *)
Theorem action_messages_visibility (a : App) (w : BrowserWindow) (b : Backend)
        (keys : KeySequence) (uri : string) (d : Dist) :
  window a = Some w -> backend a = Some b ->
  (let a' := exec (ipc_handler (simulate_keys keys)) a in
   is_visible a' = false
   /\ trace a' = (trace a ++ [WindowHide; BackendSimulateKeys keys])%list
   /\ timers a' = timers a)
  /\ (let a' := exec (ipc_handler (open_uri uri)) a in
      is_visible a' = false
      /\ trace a' = (trace a ++ [WindowHide; ShellOpenExternal uri])%list
      /\ timers a' = timers a)
  /\ (let a' := exec (ipc_handler (move_pointer d)) a in
      is_visible a' = is_visible a
      /\ window a' = window a).
Proof.
  intros Hw Hb. cbv zeta.
  rewrite (simulate_keys_exec a w b keys Hw Hb), (open_uri_exec a w uri Hw).
  unfold is_visible. rewrite (move_pointer_window a d).
  repeat split.
Qed.

Lemma action_messages_visibility_witness :
  is_visible shown = true
  /\ is_visible (exec (ipc_handler (simulate_keys "ctrl+c")) shown) = false
  /\ is_visible (exec (ipc_handler (open_uri "https://kando.menu")) shown) = false
  /\ is_visible (exec (ipc_handler
                         (move_pointer (mkDist (JS.Fin (5 # 2)) (JS.Fin 0))))
                      shown) = true.
Proof.
  destruct (action_messages_visibility shown
              (mkWindow (mkRect 0 0 1921 1081) true "dock") ready_backend
              "ctrl+c" "https://kando.menu"
              (mkDist (JS.Fin (5 # 2)) (JS.Fin 0)) eq_refl eq_refl)
    as [[H1 _] [[H2 _] [H3 _]]].
  split; [reflexivity|]. split; [exact H1|]. split; [exact H2|].
  rewrite H3. reflexivity.
Defined.

(** ** A show request whose query resolves *)

(** The whole transition, when the window exists and a menu is configured. *)
Lemma showMenu_settled_success (a : App) (w : BrowserWindow) (info : WMInfo)
      (menu : IMenu) (rest : list IMenu) :
  window a = Some w ->
  menus a = menu :: rest ->
  showMenu_settled (Fulfilled info) a =
    (Ok tt,
     mkApp (backend a)
           (Some (mkWindow (expanded (target_area a info)) true (window_type w)))
           (hideTimeout a) (tray a) (menus a) (env a)
           (preempt_timers a ++
              [mkTimer (next_timer a) FocusCallback (now a + 100)])
           (S (next_timer a)) (now a)
           (trace a ++ preempt_effects a ++
              [ ScreenGetDisplayNearestPoint (pointer_of info);
                WindowSetBounds (expanded (target_area a info));
                ConsoleLog (focus_message info);
                SettingsGetMenus;
                WindowSendShowMenu (nodes menu)
                  (relative_to (target_area a info) (pointer_of info));
                WindowShow;
                SetTimeout (next_timer a) FocusCallback 100 ])).
Proof.
  intros Hw Hm.
  destruct a as [b win h t ms e ts n c tr]; simpl in Hw, Hm; subst.
  destruct info as [x y [cls|]]; destruct h as [id|];
    run_app; reflexivity.
Qed.

(** Without a configured menu the callback throws after the bounds were
    set; the [.catch] callback logs it. *)
Lemma showMenu_settled_no_menu (a : App) (w : BrowserWindow) (info : WMInfo) :
  window a = Some w ->
  menus a = [] ->
  showMenu_settled (Fulfilled info) a =
    (Ok tt,
     mkApp (backend a)
           (Some (mkWindow (expanded (target_area a info))
                           (visible w) (window_type w)))
           (hideTimeout a) (tray a) (menus a) (env a)
           (preempt_timers a) (next_timer a) (now a)
           (trace a ++ preempt_effects a ++
              [ ScreenGetDisplayNearestPoint (pointer_of info);
                WindowSetBounds (expanded (target_area a info));
                ConsoleLog (focus_message info);
                SettingsGetMenus;
                ConsoleError
                  ("Failed to show menu: " ++ type_error "undefined" "nodes") ])).
Proof.
  intros Hw Hm.
  destruct a as [b win h t ms e ts n c tr]; simpl in Hw, Hm; subst.
  destruct info as [x y [cls|]]; destruct h as [id|];
    run_app; reflexivity.
Qed.

(** C5: once the query has resolved with the pointer at (px, py), and the
    display nearest to that point has the work area (wx, wy, ww, wh), the
    window is given exactly the bounds (wx, wy, ww + 1, wh + 1). *)
Theorem showMenu_sets_bounds (a : App) (w : BrowserWindow) (info : WMInfo)
        (wx wy ww wh : Z) :
  window a = Some w ->
  workArea (getDisplayNearestPoint (env a)
              (mkPoint (pointerX info) (pointerY info))) = mkRect wx wy ww wh ->
  let a' := exec (showMenu_settled (Fulfilled info)) a in
  option_map bounds (window a') = Some (mkRect wx wy (ww + 1) (wh + 1))
  /\ In (WindowSetBounds (mkRect wx wy (ww + 1) (wh + 1))) (trace a').
Proof.
  intros Hw Harea. cbv zeta. unfold exec.
  assert (Hexp : expanded (target_area a info) = mkRect wx wy (ww + 1) (wh + 1)).
  { unfold expanded, target_area, pointer_of. rewrite Harea. reflexivity. }
  destruct (menus a) as [|menu rest] eqn:Hm.
  - rewrite (showMenu_settled_no_menu a w info Hw Hm). cbn [snd window trace].
    rewrite Hexp. split; [reflexivity|].
    apply in_or_app; right. apply in_or_app; right. simpl; auto.
  - rewrite (showMenu_settled_success a w info menu rest Hw Hm).
    cbn [snd window trace]. rewrite Hexp. split; [reflexivity|].
    apply in_or_app; right. apply in_or_app; right. simpl; auto.
Qed.

Lemma showMenu_sets_bounds_witness :
  let a' := exec (showMenu_settled (Fulfilled (mkWMInfo 2000 300 (Some "kitty"))))
                 (with_window (Some (mkWindow full_hd false "dock"))
                    (new_app (Some ready_backend) [createExampleMenu]
                       (single_display (mkRect 1920 0 2560 1440)))) in
  option_map bounds (window a') = Some (mkRect 1920 0 2561 1441)
  /\ In (WindowSetBounds (mkRect 1920 0 2561 1441)) (trace a').
Proof.
  apply (showMenu_sets_bounds
           (with_window (Some (mkWindow full_hd false "dock"))
              (new_app (Some ready_backend) [createExampleMenu]
                 (single_display (mkRect 1920 0 2560 1440))))
           (mkWindow full_hd false "dock")
           (mkWMInfo 2000 300 (Some "kitty")) 1920 0 2560 1440);
    reflexivity.
Defined.

(** C6: a successful show request sends exactly one show-menu message; it
    carries the root of the first configured menu and the pointer position
    relative to the origin of the work area. *)
Theorem showMenu_sends_first_menu (a : App) (w : BrowserWindow) (info : WMInfo)
        (menu : IMenu) (rest : list IMenu) :
  window a = Some w ->
  menus a = menu :: rest ->
  let area := workArea (getDisplayNearestPoint (env a)
                          (mkPoint (pointerX info) (pointerY info))) in
  let a' := exec (showMenu_settled (Fulfilled info)) a in
  filter is_show_menu (trace a') =
    (filter is_show_menu (trace a) ++
     [WindowSendShowMenu (nodes menu)
        (mkPoint (pointerX info - rx area) (pointerY info - ry area))])%list
  /\ option_map bounds (window a') =
       Some (mkRect (rx area) (ry area) (rwidth area + 1) (rheight area + 1))
  /\ is_visible a' = true.
Proof.
  intros Hw Hm. cbv zeta. unfold exec.
  rewrite (showMenu_settled_success a w info menu rest Hw Hm).
  cbn [snd window trace]. repeat split.
  rewrite !filter_app.
  assert (Hp : filter is_show_menu (preempt_effects a) = []).
  { unfold preempt_effects. destruct (hideTimeout a); reflexivity. }
  rewrite Hp. reflexivity.
Qed.

Lemma showMenu_sends_first_menu_witness :
  let a' := exec (showMenu_settled (Fulfilled (mkWMInfo 100 50 None))) started in
  filter is_show_menu (trace a') =
    [WindowSendShowMenu (nodes createExampleMenu) (mkPoint 100 50)]
  /\ option_map bounds (window a') = Some (mkRect 0 0 1921 1081)
  /\ is_visible a' = true.
Proof.
  exact (showMenu_sends_first_menu started
           (mkWindow (mkRect 0 0 1921 1081) false "dock")
           (mkWMInfo 100 50 None) createExampleMenu [] eq_refl eq_refl).
Defined.

(** ** First start *)

(** C7: when [init] finds no stored menu (and a backend exists), its first
    two effects are the read of the menu list and the write of the
    one-element list holding the example menu; the backend is initialised
    only afterwards, everything else later still.  The store then holds
    exactly that menu, whose root has eight children, however the rest of
    [init] goes. *)
Theorem init_seeds_example_menu (a : App) (b : Backend) :
  backend a = Some b ->
  menus a = [] ->
  let a' := exec init a in
  menus a' = [createExampleMenu]
  /\ List.length (node_children (nodes createExampleMenu)) = 8%nat
  /\ exists rest,
       trace a' =
         (trace a ++
          [ SettingsGetMenus;
            SettingsSetMenus [createExampleMenu];
            SettingsOnChange "config.json" "menuTheme";
            SettingsOnChange "config.json" "editorTheme";
            BackendInit ] ++ rest)%list
       /\ forall e, In e rest ->
            e <> SettingsGetMenus /\ forall ms, e <> SettingsSetMenus ms.
Proof.
  intros Hb Hm. cbv zeta.
  destruct a as [bk win h t ms e ts n c tr]; simpl in Hb, Hm; subst.
  split; [|split; [reflexivity|]].
  - destruct b as [wt [[]|r1] [[]|r2]]; destruct e as [pd near [[]|r3]];
      reflexivity.
  - destruct b as [wt [[]|r1] [[]|r2]]; destruct e as [pd near [[]|r3]];
      run_app; (eexists; split; [reflexivity|]);
      intros x Hx; simpl in Hx;
      repeat (destruct Hx as [Hx|Hx]; [subst x; split; [|intros ?]; discriminate|]);
      destruct Hx.
Qed.

Lemma init_seeds_example_menu_witness :
  menus started = [createExampleMenu]
  /\ List.length (node_children (nodes createExampleMenu)) = 8%nat.
Proof.
  destruct (init_seeds_example_menu
              (new_app (Some ready_backend) [] (single_display full_hd))
              ready_backend eq_refl eq_refl) as [H1 [H2 _]].
  split; [exact H1 | exact H2].
Defined.

(** ** The hide timer *)

Lemma cancel_not_pending (id : nat) (ts : list Timer) :
  existsb (fun t => Nat.eqb (timer_id t) id) (cancel id ts) = false.
Proof.
  induction ts as [|t ts IH]; [reflexivity|].
  unfold cancel in *. cbn [filter].
  destruct (Nat.eqb (timer_id t) id) eqn:E; cbn [negb]; [exact IH|].
  cbn [existsb]. rewrite E. exact IH.
Qed.

Lemma find_timer_pending (id : nat) (ts : list Timer) (t : Timer) :
  find_timer id ts = Some t -> In t ts /\ timer_id t = id.
Proof.
  intros H. apply find_some in H. destruct H as [Hin Heq].
  split; [exact Hin | apply Nat.eqb_eq; exact Heq].
Qed.

(** A direct hide changes the window and the trace and nothing else. *)
Lemma direct_hide_exec (a : App) (w : BrowserWindow) (m : IpcMessage) :
  hides_directly m = true ->
  window a = Some w ->
  exists tr,
    exec (ipc_handler m) a = with_trace tr (with_window (Some (hidden w)) a).
Proof.
  intros Hm Hw.
  destruct a as [bk win h tr0 ms e ts n c tr]; simpl in Hw; subst.
  destruct m; try discriminate Hm; [destruct bk|]; eexists; reflexivity.
Qed.

(** The hide callback, run from the loop once its deadline has passed. *)
Lemma fire_hide_timer_exec (a : App) (w : BrowserWindow) (id : nat) (t : Timer) :
  window a = Some w ->
  find_timer id (timers a) = Some t ->
  timer_callback t = HideCallback ->
  timer_deadline t <= now a ->
  exec (fire_timer id) a =
    mkApp (backend a) (Some (hidden w)) None (tray a) (menus a) (env a)
          (cancel id (timers a)) (next_timer a) (now a)
          (trace a ++ [WindowHide]).
Proof.
  intros Hw Hf Hc Hd.
  destruct a as [bk win h tr0 ms e ts n c tr]; simpl in Hw, Hf, Hd; subst.
  unfold exec, fire_timer, bind, read. cbn [timers now fst snd].
  rewrite Hf. apply Z.leb_le in Hd. rewrite Hd, Hc. reflexivity.
Qed.

(** C10: [simulate-keys] and [open-uri] hide the window but touch neither
    the pending timers nor the handle.  A hide timer that was armed is
    therefore still pending; when the loop runs it, at any time from its
    deadline on, it calls [window.hide()] on the hidden window once more and
    clears the handle. *)
Theorem direct_hide_keeps_hide_timer (a : App) (w : BrowserWindow)
        (m : IpcMessage) (id : nat) (t : Timer) :
  hides_directly m = true ->
  window a = Some w ->
  hideTimeout a = Some id ->
  find_timer id (timers a) = Some t ->
  timer_callback t = HideCallback ->
  let a1 := exec (ipc_handler m) a in
  timers a1 = timers a
  /\ hideTimeout a1 = Some id
  /\ In t (pending_hide_timers a1)
  /\ is_visible a1 = false
  /\ forall dt,
       timer_deadline t <= now a + Z.max 0 dt ->
       let a2 := exec (fire_timer id) (exec (elapse dt) a1) in
       trace a2 = (trace a1 ++ [WindowHide])%list
       /\ hideTimeout a2 = None
       /\ is_visible a2 = false
       /\ timer_pending id a2 = false.
Proof.
  intros Hm Hw Hh Hf Hc. cbv zeta.
  destruct (direct_hide_exec a w m Hm Hw) as [tr E]. rewrite E.
  split; [reflexivity|]. split; [exact Hh|]. split.
  { unfold pending_hide_timers. cbn [timers with_trace with_window].
    apply filter_In. split; [apply (find_timer_pending id _ _ Hf)|].
    unfold is_hide_timer. rewrite Hc. reflexivity. }
  split; [reflexivity|].
  intros dt Hdt.
  rewrite (fire_hide_timer_exec _ (hidden w) id t); try assumption; try reflexivity.
  unfold timer_pending, is_visible.
  cbn [trace hideTimeout window timers visible hidden exec elapse modify snd
       with_now with_trace with_window].
  repeat split. apply cancel_not_pending.
Qed.

Lemma direct_hide_keeps_hide_timer_witness :
  let a := exec (ipc_handler (hide_window 150)) shown in
  let a1 := exec (ipc_handler (simulate_keys "ctrl+c")) a in
  let a2 := exec (fire_timer 1) (exec (elapse 150) a1) in
  is_visible a = true
  /\ timers a1 = timers a
  /\ hideTimeout a1 = Some 1%nat
  /\ is_visible a1 = false
  /\ trace a2 = (trace a1 ++ [WindowHide])%list
  /\ hideTimeout a2 = None
  /\ timer_pending 1 a2 = false.
Proof.
  cbv zeta.
  destruct (direct_hide_keeps_hide_timer
              (exec (ipc_handler (hide_window 150)) shown)
              (mkWindow (mkRect 0 0 1921 1081) true "dock")
              (simulate_keys "ctrl+c") 1%nat (mkTimer 1 HideCallback 150)
              eq_refl eq_refl eq_refl eq_refl eq_refl)
    as [H1 [H2 [_ [H3 H4]]]].
  destruct (H4 150) as [H5 [H6 [_ H7]]]; [vm_compute; discriminate|].
  split; [reflexivity|]. split; [exact H1|]. split; [exact H2|].
  split; [exact H3|]. split; [exact H5|]. split; [exact H6 | exact H7].
Defined.

(** *** The bookkeeping when the renderer hides once at a time *)

Lemma NoDup_ids_filter (p : Timer -> bool) (l : list Timer) :
  NoDup (map timer_id l) -> NoDup (map timer_id (filter p l)).
Proof.
  induction l as [|t l IH]; intros Hnd; [constructor|].
  inversion Hnd as [|x xs Hx Hxs]; subst. cbn [filter].
  destruct (p t); [|exact (IH Hxs)].
  cbn [map]. constructor; [|exact (IH Hxs)].
  intros Hin. apply Hx. apply in_map_iff in Hin.
  destruct Hin as [u [Hu Hin]]. apply filter_In in Hin.
  apply in_map_iff. exists u. tauto.
Qed.

Section TimerBookkeeping.

Variables (ts : list Timer) (n : nat) (h : option nat).
Hypothesis ok : timers_ok ts n h.

Lemma timers_ok_filter (p : Timer -> bool) : timers_ok (filter p ts) n h.
Proof.
  destruct ok as [Hnd [Hlt Hh]]. repeat split.
  - apply NoDup_ids_filter. exact Hnd.
  - intros t Hin. apply filter_In in Hin. apply Hlt. tauto.
  - intros t Hin. apply Hh. apply filter_In in Hin.
    destruct Hin as [Hin Hhide]. apply filter_In in Hin.
    apply filter_In. tauto.
Qed.

Lemma timers_ok_fresh_ids (c : TimerCallback) (d : Z) :
  NoDup (map timer_id (ts ++ [mkTimer n c d]))
  /\ (forall t, In t (ts ++ [mkTimer n c d]) -> (timer_id t < S n)%nat).
Proof.
  destruct ok as [Hnd [Hlt _]]. split.
  - rewrite map_app. cbn [map timer_id].
    apply NoDup_app; [exact Hnd | repeat constructor; intros [] |].
    intros x Hx [Hn|[]]. subst x.
    apply in_map_iff in Hx. destruct Hx as [u [Hu Hin]].
    specialize (Hlt u Hin). lia.
  - intros t Hin. apply in_app_or in Hin. destruct Hin as [Hin|[Hin|[]]].
    + specialize (Hlt t Hin). lia.
    + subst t. cbn [timer_id]. lia.
Qed.

Lemma timers_ok_add_focus (d : Z) :
  timers_ok (ts ++ [mkTimer n FocusCallback d]) (S n) h.
Proof.
  destruct (timers_ok_fresh_ids FocusCallback d) as [Hnd Hlt].
  split; [exact Hnd|]. split; [exact Hlt|].
  intros t Hin. rewrite filter_app in Hin. cbn in Hin.
  rewrite app_nil_r in Hin. destruct ok as [_ [_ Hh]]. apply Hh. exact Hin.
Qed.

Lemma timers_ok_arm_hide (d : Z) :
  filter is_hide_timer ts = [] ->
  timers_ok (ts ++ [mkTimer n HideCallback d]) (S n) (Some n).
Proof.
  intros Hnone.
  destruct (timers_ok_fresh_ids HideCallback d) as [Hnd Hlt].
  split; [exact Hnd|]. split; [exact Hlt|].
  intros t Hin. rewrite filter_app, Hnone in Hin. cbn in Hin.
  destruct Hin as [Hin|[]]. subst t. reflexivity.
Qed.

Lemma timers_ok_hide_fired (id : nat) (t : Timer) :
  find_timer id ts = Some t ->
  timer_callback t = HideCallback ->
  timers_ok (cancel id ts) n None.
Proof.
  intros Hf Hc.
  destruct (timers_ok_filter (fun u => negb (Nat.eqb (timer_id u) id)))
    as [Hnd [Hlt _]].
  split; [exact Hnd|]. split; [exact Hlt|].
  intros u Hin. exfalso.
  apply filter_In in Hin. destruct Hin as [Hin Hu].
  apply filter_In in Hin. destruct Hin as [Hin Hneq].
  destruct ok as [_ [_ Hh]].
  destruct (find_timer_pending id ts t Hf) as [Ht Hid].
  assert (Eu : h = Some (timer_id u)) by (apply Hh, filter_In; tauto).
  assert (Et : h = Some (timer_id t)).
  { apply Hh, filter_In. split; [exact Ht|].
    unfold is_hide_timer. rewrite Hc. reflexivity. }
  rewrite Eu in Et. injection Et as Et. rewrite Et, Hid in Hneq.
  rewrite Nat.eqb_refl in Hneq. discriminate Hneq.
Qed.

Lemma timers_ok_at_most_one :
  (List.length (filter is_hide_timer ts) <= 1)%nat.
Proof.
  destruct (timers_ok_filter is_hide_timer) as [Hnd _].
  destruct ok as [_ [_ Hh]].
  destruct (filter is_hide_timer ts) as [|t1 [|t2 l]]; cbn [List.length];
    try lia.
  exfalso.
  assert (E1 : h = Some (timer_id t1)) by (apply Hh; simpl; auto).
  assert (E2 : h = Some (timer_id t2)) by (apply Hh; simpl; auto).
  rewrite E1 in E2. injection E2 as E2.
  cbn [map] in Hnd. inversion Hnd as [|x xs Hx _]; subst.
  apply Hx. rewrite E2. simpl; auto.
Qed.

End TimerBookkeeping.

Lemma timers_invariant_step (a : App) (ev : Event) :
  timers_invariant a ->
  hides_once ev a ->
  timers_invariant (exec (handle ev) a).
Proof.
  unfold timers_invariant.
  destruct a as [bk win h tr0 ms e ts n c tr].
  cbn [timers next_timer hideTimeout]. intros Hok Hev.
  destruct ev as [|[info|reason]|m|id|dt].
  - destruct bk; exact Hok.
  - destruct info as [x y cls]; destruct win as [w|]; destruct ms as [|menu rest];
      destruct h as [id|]; destruct cls as [cl|]; run_app;
      unfold cancel;
      first [ exact Hok
            | apply timers_ok_filter; exact Hok
            | apply timers_ok_add_focus; exact Hok
            | apply timers_ok_add_focus, timers_ok_filter; exact Hok ].
  - exact Hok.
  - destruct m as [|d|msg|keys|dist|uri];
      try (destruct win; destruct bk; exact Hok).
    apply (timers_ok_arm_hide ts n h Hok). exact Hev.
  - unfold exec, handle, fire_timer, bind, read. cbn [timers now fst snd].
    destruct (find_timer id ts) as [t|] eqn:Hf; [|exact Hok].
    destruct (timer_deadline t <=? c); [|exact Hok].
    destruct (timer_callback t) eqn:Hc; destruct win as [w|]; run_app;
      unfold cancel;
      first [ apply (timers_ok_hide_fired ts n h Hok id t Hf Hc)
            | apply timers_ok_filter; exact Hok ].
  - exact Hok.
Qed.

Lemma timers_invariant_run (evs : list Event) :
  forall a, timers_invariant a -> hides_once_all evs a ->
            timers_invariant (run evs a).
Proof.
  induction evs as [|ev evs IH]; intros a Hok Hall; [exact Hok|].
  destruct Hall as [Hev Hrest]. unfold run. cbn [fold_left].
  apply IH; [apply timers_invariant_step; assumption | exact Hrest].
Qed.

Lemma timers_invariant_new (b : option Backend) (stored : list IMenu) (e : Env) :
  timers_invariant (new_app b stored e).
Proof.
  repeat split; try constructor; intros t [].
Qed.

Lemma timers_invariant_started : timers_invariant started.
Proof.
  repeat split; try constructor; intros t [].
Qed.

(** For a renderer that never asks to hide while a hide is scheduled, at
    most one hide timer is pending after any sequence of events. *)
Lemma single_hide_timer_when_hiding_once (evs : list Event) (a : App) :
  timers_invariant a ->
  hides_once_all evs a ->
  (List.length (pending_hide_timers (run evs a)) <= 1)%nat.
Proof.
  intros Hok Hall.
  apply (timers_ok_at_most_one _ _ _ (timers_invariant_run evs a Hok Hall)).
Qed.

Lemma hide_and_show_again_single_timer :
  hides_once_all hide_and_show_again shown
  /\ (List.length (pending_hide_timers (run hide_and_show_again shown)) <= 1)%nat.
Proof.
  assert (Hall : hides_once_all hide_and_show_again shown)
    by (vm_compute; repeat split).
  split; [exact Hall|].
  apply single_hide_timer_when_hiding_once; [|exact Hall].
  apply (timers_invariant_run
           [RequestShow; WMInfoSettled (Fulfilled (mkWMInfo 100 50 None))]
           started).
  - apply timers_invariant_started.
  - repeat split.
Qed.

(** The handler of [hide-window] arms a timer and cancels none. *)
Lemma hide_window_cancels_nothing (a : App) (delay : Z) :
  pending_hide_timers (exec (ipc_handler (hide_window delay)) a) =
    (pending_hide_timers a ++
     [mkTimer (next_timer a) HideCallback (now a + timeout_after delay)])%list.
Proof.
  unfold pending_hide_timers, exec, ipc_handler, bind, setTimeout, modify.
  cbn [timers with_hideTimeout with_trace with_timers snd fst].
  rewrite filter_app. reflexivity.
Qed.

(** C2 at the failing input: two [hide-window] messages in a row, sent to
    the application while the menu is shown, leave two hide timers pending
    together; the first one was not canceled when the second was armed. *)
Theorem hide_window_twice_two_pending :
  pending_hide_timers (run hide_twice shown) =
    [mkTimer 1 HideCallback 100; mkTimer 2 HideCallback 200]
  /\ hideTimeout (run hide_twice shown) = Some 2%nat
  /\ ~ (List.length (pending_hide_timers (run hide_twice shown)) <= 1)%nat.
Proof.
  split; [reflexivity|]. split; [reflexivity|].
  vm_compute. intros H. inversion H as [|k Hk]. inversion Hk.
Qed.

(** *** A show request against a scheduled hide *)

(** What a show transition does to the timer bookkeeping, however far it
    gets: the handle is kept, the timer it refers to is canceled first, and
    no hide timer is added. *)
Lemma showMenu_settled_preempts (a : App) (info : WMInfo) :
  let a' := exec (showMenu_settled (Fulfilled info)) a in
  pending_hide_timers a' = filter is_hide_timer (preempt_timers a)
  /\ hideTimeout a' = hideTimeout a
  /\ exists rest, trace a' = (trace a ++ preempt_effects a ++ rest)%list.
Proof.
  cbv zeta. unfold pending_hide_timers.
  destruct a as [bk win h tr0 ms e ts n c tr].
  destruct info as [x y cls]; destruct win as [w|]; destruct ms as [|menu rest];
    destruct h as [id|]; destruct cls as [cl|]; run_app;
    (split; [|split; [reflexivity | eexists; reflexivity]]);
    try rewrite filter_app; cbn [filter is_hide_timer timer_callback];
    try rewrite app_nil_r; reflexivity.
Qed.

(** The first effect of the [.then] callback is the cancellation of the
    timer the handle refers to, whatever its deadline and the clock; no hide
    timer with that handle is pending afterwards. *)
Lemma showMenu_cancels_handle_first (a : App) (id : nat) (info : WMInfo) :
  hideTimeout a = Some id ->
  let a' := exec (showMenu_settled (Fulfilled info)) a in
  (exists rest, trace a' = (trace a ++ ClearTimeout id :: rest)%list)
  /\ forall t, In t (pending_hide_timers a') -> timer_id t <> id.
Proof.
  intros Hh. cbv zeta.
  destruct (showMenu_settled_preempts a info) as [Hp [_ [rest Ht]]].
  unfold preempt_timers in Hp. unfold preempt_effects in Ht.
  rewrite Hh in Hp, Ht. split.
  - exists rest. exact Ht.
  - intros t Hin. rewrite Hp in Hin.
    apply filter_In in Hin. destruct Hin as [Hin _].
    apply filter_In in Hin. destruct Hin as [_ Hneq].
    intros E. rewrite E, Nat.eqb_refl in Hneq. discriminate Hneq.
Qed.

(** When the handle tracks the pending hide timers, as it does for a
    renderer that hides once at a time, a show transition leaves none. *)
Lemma showMenu_leaves_no_hide_timer (a : App) (info : WMInfo) :
  timers_invariant a ->
  pending_hide_timers (exec (showMenu_settled (Fulfilled info)) a) = [].
Proof.
  intros Hok.
  destruct (pending_hide_timers (exec (showMenu_settled (Fulfilled info)) a))
    as [|t l] eqn:E; [reflexivity|exfalso].
  assert (Hin : In t (pending_hide_timers
                        (exec (showMenu_settled (Fulfilled info)) a)))
    by (rewrite E; simpl; auto).
  assert (Hstep : timers_invariant (exec (handle (WMInfoSettled (Fulfilled info))) a))
    by (apply timers_invariant_step; [exact Hok | exact I]).
  destruct Hstep as [_ [_ Hh]]. specialize (Hh t Hin).
  destruct (showMenu_settled_preempts a info) as [_ [Hsame _]].
  cbn [handle] in Hh. rewrite Hsame in Hh.
  destruct (showMenu_cancels_handle_first a (timer_id t) info Hh) as [_ Hne].
  exact (Hne t Hin eq_refl).
Qed.

(** C4 at the failing input: after two [hide-window] messages the show
    transition cancels the second timer only.  The first one is still
    pending once the menu is shown, and when it fires it hides the menu
    that was just requested. *)
Theorem show_after_two_hides_keeps_timer :
  let a := run hide_twice_then_show shown in
  pending_hide_timers a = [mkTimer 1 HideCallback 100]
  /\ is_visible a = true
  /\ is_visible (run [Elapse 100; TimerFires 1] a) = false.
Proof.
  cbv zeta. repeat split.
Qed.

(** * Further properties of [app.ts] *)

(** ** The generator of the example menu *)

Lemma list_sum_constant (A : Type) (f : A -> nat) (k : nat) (l : list A) :
  (forall x, In x l -> f x = k) ->
  list_sum (map f l) = (List.length l * k)%nat.
Proof.
  induction l as [|x l IH]; intros H; [reflexivity|].
  cbn [map List.length].
  change (list_sum (f x :: map f l)) with (f x + list_sum (map f l))%nat.
  rewrite (H x (or_introl eq_refl)).
  rewrite IH; [reflexivity|]. intros y Hy. apply H. right. exact Hy.
Qed.

Lemma node_count_eq (nm ic th : string) (cs : list INode) :
  node_count (Node nm ic th cs) = S (list_sum (map node_count cs)).
Proof. reflexivity. Qed.


Lemma addChildren_levels_count (levels : list nat) :
  forall parent,
    levels <> [] \/ node_children parent = [] ->
    node_count (addChildren_levels levels parent) = S (nodes_below levels).
Proof.
  induction levels as [|count deeper IH]; intros [nm ic th cs] H.
  - destruct H as [H|H]; [contradiction|]. cbn in H. subst cs. reflexivity.
  - cbn [addChildren_levels set_children nodes_below node_name].
    rewrite node_count_eq. f_equal. rewrite map_map.
    rewrite (list_sum_constant _ _ (S (nodes_below deeper))).
    + rewrite length_seq. reflexivity.
    + intros i _. apply IH. right. reflexivity.
Qed.

(** X1: for every fan-out table and every childless root, [addChildren]
    builds a tree of [1 + c1 + c1*c2 + ...] nodes; the example menu, built
    from the table [8; 7; 7], has 457. *)
Theorem addChildren_node_count (levels : list nat) (parent : INode) :
  node_children parent = [] ->
  node_count (addChildren_levels levels parent) = S (nodes_below levels)
  /\ node_count (nodes createExampleMenu) = 457%nat.
Proof.
  intros H. split.
  - apply addChildren_levels_count. right. exact H.
  - unfold createExampleMenu, addChildren. cbn [nodes skipn].
    rewrite addChildren_levels_count by (left; discriminate). reflexivity.
Qed.

Lemma addChildren_node_count_witness :
  node_count (addChildren_levels [2; 3]%nat example_root) = 9%nat
  /\ node_count (nodes createExampleMenu) = 457%nat.
Proof.
  exact (addChildren_node_count [2; 3]%nat example_root eq_refl).
Defined.




Lemma string_append_assoc (a b c : string) : (a ++ b) ++ c = a ++ (b ++ c).
Proof.
  induction a as [|ch a IH]; [reflexivity|].
  cbn [String.append]. rewrite IH. reflexivity.
Qed.

Lemma descendants_eq (nm ic th : string) (cs : list INode) :
  descendants (Node nm ic th cs) = flat_map (fun c => c :: descendants c) cs.
Proof. reflexivity. Qed.

(** Filling a node changes its children only. *)
Lemma addChildren_levels_label (levels : list nat) (parent : INode) :
  node_name (addChildren_levels levels parent) = node_name parent
  /\ node_icon (addChildren_levels levels parent) = node_icon parent
  /\ node_iconTheme (addChildren_levels levels parent) = node_iconTheme parent.
Proof.
  destruct levels; destruct parent; repeat split.
Qed.

Lemma test_icon_in_palette (i : nat) :
  In (nth (i mod List.length TEST_ICONS) TEST_ICONS "") TEST_ICONS.
Proof.
  apply nth_In. apply Nat.mod_upper_bound. discriminate.
Qed.

(** X3: whatever the fan-out table, every node generated below a root
    carries a name that extends the root's name, an icon of [TEST_ICONS]
    and the icon theme 'material-symbols-rounded'. *)
Theorem addChildren_labels (levels : list nat) (parent d : INode) :
  node_children parent = [] ->
  In d (descendants (addChildren_levels levels parent)) ->
  has_prefix (node_name parent) (node_name d)
  /\ In (node_icon d) TEST_ICONS
  /\ node_iconTheme d = "material-symbols-rounded".
Proof.
  revert parent d.
  induction levels as [|count deeper IH]; intros [nm ic th cs] d Hcs Hd.
  - cbn in Hcs. subst cs. destruct Hd.
  - cbn [addChildren_levels set_children node_name] in Hd |- *.
    rewrite descendants_eq in Hd. apply in_flat_map in Hd.
    destruct Hd as [c [Hc Hd]]. apply in_map_iff in Hc.
    destruct Hc as [i [Ec _]].
    destruct (addChildren_levels_label deeper (child_node nm i))
      as [En [Ei Et]].
    destruct Hd as [Hd|Hd].
    + subst d c. rewrite En, Ei, Et. split; [|split].
      * exists (" " ++ JS.string_of_index i). reflexivity.
      * apply test_icon_in_palette.
      * reflexivity.
    + subst c. destruct (IH (child_node nm i) d eq_refl Hd) as [[sfx Hp] [Hi Ht]].
      split; [|split; assumption].
      exists ((" " ++ JS.string_of_index i) ++ sfx).
      rewrite Hp. cbn [child_node node_name].
      apply string_append_assoc.
Qed.

Lemma addChildren_labels_witness :
  let d := nth 302 (descendants (nodes createExampleMenu)) example_root in
  node_name d = "Node 5 2"
  /\ has_prefix "Node" (node_name d)
  /\ In (node_icon d) TEST_ICONS.
Proof.
  cbv zeta. split; [reflexivity|].
  destruct (addChildren_labels CHILDREN_PER_LEVEL example_root
              (nth 302 (descendants (nodes createExampleMenu)) example_root)
              eq_refl)
    as [H1 [H2 _]].
  - apply nth_In. vm_compute. repeat constructor.
  - split; [exact H1 | exact H2].
Defined.

(** X4: [addChildren] on a level at or beyond the length of
    [CHILDREN_PER_LEVEL] returns the node as it is, children included; on a
    level inside the table it discards whatever children the node had and
    gives it as many as the table says for that level. *)
Theorem addChildren_level_edges (parent : INode) (level : nat) :
  ((List.length CHILDREN_PER_LEVEL <= level)%nat ->
   addChildren parent level = parent)
  /\ ((level < List.length CHILDREN_PER_LEVEL)%nat ->
      (forall cs, addChildren (set_children parent cs) level
                  = addChildren parent level)
      /\ List.length (node_children (addChildren parent level))
         = nth level CHILDREN_PER_LEVEL 0%nat).
Proof.
  split.
  - intros H. unfold addChildren. rewrite skipn_all2 by exact H. reflexivity.
  - intros H. split.
    + intros cs. rewrite !addChildren_unfold.
      destruct (nth_error CHILDREN_PER_LEVEL level) as [count|] eqn:E.
      * destruct parent; reflexivity.
      * apply nth_error_None in E. lia.
    + rewrite addChildren_unfold.
      destruct (nth_error CHILDREN_PER_LEVEL level) as [count|] eqn:E.
      * rewrite (nth_error_nth _ _ _ E). destruct parent.
        cbn [set_children node_children]. rewrite length_map, length_seq.
        reflexivity.
      * apply nth_error_None in E. lia.
Qed.

Lemma addChildren_level_edges_witness :
  addChildren (child_node "Node 1 2" 3) 3 = child_node "Node 1 2" 3
  /\ List.length (node_children (addChildren (child_node "Node" 1) 1)) = 7%nat.
Proof.
  destruct (addChildren_level_edges (child_node "Node 1 2" 3) 3) as [H1 _].
  destruct (addChildren_level_edges (child_node "Node" 1) 1) as [_ H2].
  split.
  - apply H1. vm_compute. repeat constructor.
  - destruct H2 as [_ H2]; [vm_compute; repeat constructor | exact H2].
Defined.

(** ** Startup *)

(** X5: when the store already holds a menu, [init] writes nothing to it:
    the list is the stored one afterwards and the trace has no
    [set({menus})], whether the later steps succeed or not. *)
Theorem init_keeps_stored_menus (a : App) (bk : Backend)
        (menu : IMenu) (rest : list IMenu) :
  backend a = Some bk ->
  menus a = menu :: rest ->
  let a' := exec init a in
  menus a' = menu :: rest
  /\ forall e, In e (trace a') ->
       In e (trace a) \/ forall ms, e <> SettingsSetMenus ms.
Proof.
  intros Hb Hm. cbv zeta.
  destruct a as [b win h t ms e ts n c tr]; simpl in Hb, Hm; subst.
  destruct bk as [wt [[]|r1] [[]|r2]]; destruct e as [pd near [[]|r3]];
    (split; [reflexivity|]); run_app; intros x Hx;
    (apply in_app_or in Hx; destruct Hx as [Hx|Hx]; [left; exact Hx|right]);
    simpl in Hx;
    repeat (destruct Hx as [Hx|Hx]; [subst x; intros ?; discriminate|]);
    destruct Hx.
Qed.

Lemma init_keeps_stored_menus_witness :
  let stored := mkMenu (Node "Apps" "apps" "material-symbols-rounded" [])
                       "Control+Space" true in
  menus (exec init (new_app (Some ready_backend) [stored]
                      (single_display full_hd))) = [stored].
Proof.
  cbv zeta.
  exact (proj1 (init_keeps_stored_menus
                  (new_app (Some ready_backend)
                     [mkMenu (Node "Apps" "apps" "material-symbols-rounded" [])
                             "Control+Space" true]
                     (single_display full_hd))
                  ready_backend _ [] eq_refl eq_refl)).
Defined.

(** X6: when the backend initialises, the page loads and the shortcut
    binds, [init] returns normally.  The window then exists, hidden, over
    the primary display's work area widened by one pixel each way and of the
    backend's window type; the IPC handlers were registered only after the
    page had loaded, the shortcut was bound last, and no timer was touched. *)
Theorem init_success (a : App) (bk : Backend) :
  backend a = Some bk ->
  backend_init bk = Fulfilled tt ->
  loadURL (env a) = Fulfilled tt ->
  bindShortcut bk = Fulfilled tt ->
  let a' := exec init a in
  outcome_of init a = Ok tt
  /\ window a' = Some (initial_window (env a) bk)
  /\ is_visible a' = false
  /\ tray a' = true
  /\ menus a' = seeded (menus a)
  /\ timers a' = timers a
  /\ hideTimeout a' = hideTimeout a
  /\ trace a' =
       (trace a ++ settings_stage (menus a) ++ window_stage (env a) bk
                ++ ipc_and_tray_stage)%list.
Proof.
  intros Hb Hi Hl Hs. cbv zeta.
  destruct a as [b win h t ms e ts n c tr]; simpl in Hb, Hl; subst.
  destruct bk as [wt bi bs]; simpl in Hi, Hs; subst.
  destruct e as [pd near lu]; simpl in Hl; subst.
  destruct ms as [|menu rest]; run_app; repeat split.
Qed.

Lemma init_success_witness :
  outcome_of init (new_app (Some ready_backend) [] (single_display full_hd))
  = Ok tt
  /\ window started = Some (mkWindow (mkRect 0 0 1921 1081) false "dock")
  /\ timers started = [].
Proof.
  destruct (init_success
              (new_app (Some ready_backend) [] (single_display full_hd))
              ready_backend eq_refl eq_refl eq_refl eq_refl)
    as [H1 [H2 [_ [_ [_ [H3 _]]]]]].
  split; [exact H1|]. split; [exact H2 | exact H3].
Defined.

(** X7: when [backend.init()] rejects, [init] rejects with the same reason
    right there: no window is created, no IPC handler registered, no tray
    icon made and no shortcut bound.  The first-run seeding has already
    happened. *)
Theorem init_backend_init_rejected (a : App) (bk : Backend) (reason : string) :
  backend a = Some bk ->
  backend_init bk = Rejected reason ->
  let a' := exec init a in
  outcome_of init a = Throw reason
  /\ window a' = window a
  /\ tray a' = tray a
  /\ menus a' = seeded (menus a)
  /\ trace a' = (trace a ++ settings_stage (menus a))%list.
Proof.
  intros Hb Hi. cbv zeta.
  destruct a as [b win h t ms e ts n c tr]; simpl in Hb; subst.
  destruct bk as [wt bi bs]; simpl in Hi; subst.
  destruct ms as [|menu rest]; run_app; repeat split.
Qed.

Lemma init_backend_init_rejected_witness :
  let bk := mkBackend "dock" (Rejected "Error: no display") (Fulfilled tt) in
  let a' := exec init (new_app (Some bk) [] (single_display full_hd)) in
  window a' = None /\ tray a' = false /\ menus a' = [createExampleMenu].
Proof.
  cbv zeta.
  destruct (init_backend_init_rejected
              (new_app (Some (mkBackend "dock" (Rejected "Error: no display")
                                        (Fulfilled tt)))
                 [] (single_display full_hd))
              (mkBackend "dock" (Rejected "Error: no display") (Fulfilled tt))
              "Error: no display" eq_refl eq_refl)
    as [_ [H1 [H2 [H3 _]]]].
  split; [exact H1|]. split; [exact H2 | exact H3].
Defined.

(** X8: when the page fails to load, [init] rejects with that reason.  The
    browser window was constructed, but the field [window] was never
    assigned, and neither IPC handlers nor tray nor shortcut were set up. *)
Theorem init_loadURL_rejected (a : App) (bk : Backend) (reason : string) :
  backend a = Some bk ->
  backend_init bk = Fulfilled tt ->
  loadURL (env a) = Rejected reason ->
  let a' := exec init a in
  outcome_of init a = Throw reason
  /\ window a' = window a
  /\ tray a' = tray a
  /\ trace a' =
       (trace a ++ settings_stage (menus a) ++ window_stage (env a) bk)%list.
Proof.
  intros Hb Hi Hl. cbv zeta.
  destruct a as [b win h t ms e ts n c tr]; simpl in Hb, Hl; subst.
  destruct bk as [wt bi bs]; simpl in Hi; subst.
  destruct e as [pd near lu]; simpl in Hl; subst.
  destruct ms as [|menu rest]; run_app; repeat split.
Qed.

Lemma init_loadURL_rejected_witness :
  let e := mkEnv (mkDisplay full_hd) (fun _ => mkDisplay full_hd)
                 (Rejected "Error: ERR_FILE_NOT_FOUND") in
  let a' := exec init (new_app (Some ready_backend) [] e) in
  window a' = None /\ tray a' = false.
Proof.
  cbv zeta.
  destruct (init_loadURL_rejected
              (new_app (Some ready_backend) []
                 (mkEnv (mkDisplay full_hd) (fun _ => mkDisplay full_hd)
                        (Rejected "Error: ERR_FILE_NOT_FOUND")))
              ready_backend "Error: ERR_FILE_NOT_FOUND"
              eq_refl eq_refl eq_refl)
    as [_ [H1 [H2 _]]].
  split; [exact H1 | exact H2].
Defined.

(** X9: when only [bindShortcut] rejects, [init] rejects with that reason
    but leaves a set-up application behind: window, IPC handlers and tray
    are all there. *)
Theorem init_bindShortcut_rejected (a : App) (bk : Backend) (reason : string) :
  backend a = Some bk ->
  backend_init bk = Fulfilled tt ->
  loadURL (env a) = Fulfilled tt ->
  bindShortcut bk = Rejected reason ->
  let a' := exec init a in
  outcome_of init a = Throw reason
  /\ window a' = Some (initial_window (env a) bk)
  /\ tray a' = true
  /\ trace a' =
       (trace a ++ settings_stage (menus a) ++ window_stage (env a) bk
                ++ ipc_and_tray_stage)%list.
Proof.
  intros Hb Hi Hl Hs. cbv zeta.
  destruct a as [b win h t ms e ts n c tr]; simpl in Hb, Hl; subst.
  destruct bk as [wt bi bs]; simpl in Hi, Hs; subst.
  destruct e as [pd near lu]; simpl in Hl; subst.
  destruct ms as [|menu rest]; run_app; repeat split.
Qed.

Lemma init_bindShortcut_rejected_witness :
  let bk := mkBackend "dock" (Fulfilled tt) (Rejected "Error: taken") in
  let a := new_app (Some bk) [] (single_display full_hd) in
  outcome_of init a = Throw "Error: taken"
  /\ tray (exec init a) = true.
Proof.
  cbv zeta.
  destruct (init_bindShortcut_rejected
              (new_app (Some (mkBackend "dock" (Fulfilled tt)
                                        (Rejected "Error: taken")))
                 [] (single_display full_hd))
              (mkBackend "dock" (Fulfilled tt) (Rejected "Error: taken"))
              "Error: taken" eq_refl eq_refl eq_refl eq_refl)
    as [H1 [_ [H2 _]]].
  split; [exact H1 | exact H2].
Defined.

(** ** Shutdown *)

(** X10: [quit] guards the backend: without one it unbinds nothing and
    still closes both settings stores; with one, and the unbinding done, it
    unbinds first and then closes both.  Either way it returns normally and
    leaves window and pending timers alone. *)
Theorem quit_closes_settings (a : App) :
  let effects :=
    (match backend a with
     | Some _ => [BackendUnbindAllShortcuts]
     | None => []
     end ++ [SettingsClose "config.json"; SettingsClose "menus.json"])%list in
  quit (Fulfilled tt) a = (Ok tt, with_trace (trace a ++ effects) a)
  /\ (backend a = None ->
      forall unbound,
        quit unbound a =
          (Ok tt,
           with_trace (trace a ++ [SettingsClose "config.json";
                                   SettingsClose "menus.json"]) a)).
Proof.
  cbv zeta. destruct a as [[bk|] win h t ms e ts n c tr]; split;
    try (intros H; discriminate H); try (intros _ unbound);
    run_app; reflexivity.
Qed.

Lemma quit_closes_settings_witness :
  quit (Rejected "unused") (new_app None [] (single_display full_hd))
  = (Ok tt,
     with_trace [SettingsClose "config.json"; SettingsClose "menus.json"]
       (new_app None [] (single_display full_hd))).
Proof.
  exact (proj2 (quit_closes_settings
                  (new_app None [] (single_display full_hd)))
               eq_refl (Rejected "unused")).
Defined.

(** X11: when [unbindAllShortcuts] rejects, [quit] rejects with the same
    reason and neither settings store is closed. *)
Theorem quit_unbind_rejected (a : App) (bk : Backend) (reason : string) :
  backend a = Some bk ->
  quit (Rejected reason) a =
    (Throw reason, with_trace (trace a ++ [BackendUnbindAllShortcuts]) a).
Proof.
  intros Hb. destruct a as [b win h t ms e ts n c tr]; simpl in Hb; subst.
  reflexivity.
Qed.

Lemma quit_unbind_rejected_witness :
  outcome_of (quit (Rejected "Error: connection lost")) started
  = Throw "Error: connection lost"
  /\ trace (exec (quit (Rejected "Error: connection lost")) started)
     = (trace started ++ [BackendUnbindAllShortcuts])%list.
Proof.
  unfold outcome_of, exec.
  rewrite (quit_unbind_rejected started ready_backend "Error: connection lost"
             eq_refl).
  split; reflexivity.
Defined.

(** ** Show requests that fail *)

(** X12: [showMenu] does not guard the backend: with a null backend the
    TypeError of the call escapes synchronously, outside the promise chain,
    so it is not logged by the [.catch] callback, and no query is sent. *)
Theorem showMenu_without_backend_throws (a : App) :
  backend a = None ->
  showMenu a = (Throw (type_error "null" "getWMInfo"), a).
Proof.
  intros Hb. unfold showMenu, bind, this_backend. rewrite Hb. reflexivity.
Qed.

Lemma showMenu_without_backend_throws_witness :
  showMenu (new_app None [] (single_display full_hd))
  = (Throw "TypeError: Cannot read properties of null (reading 'getWMInfo')",
     new_app None [] (single_display full_hd)).
Proof.
  exact (showMenu_without_backend_throws
           (new_app None [] (single_display full_hd)) eq_refl).
Defined.

(** X13: the promise chain of [showMenu] never rejects: however the query
    settles and whatever state the application is in (no window yet, no
    menu configured), the settled chain returns normally. *)
Theorem showMenu_settled_never_throws (a : App) (o : Outcome WMInfo) :
  outcome_of (showMenu_settled o) a = Ok tt.
Proof.
  destruct a as [bk win h t ms e ts n c tr].
  destruct o as [[x y cls]|reason]; [|reflexivity].
  destruct win as [w|]; destruct ms as [|menu rest];
    destruct h as [id|]; destruct cls as [cl|]; reflexivity.
Qed.

(** X14: with the window in place but no menu configured, a resolved show
    request moves the window and cancels the scheduled hide, then fails
    reading the menu: no show-menu message is sent, the window's visibility
    is as before, no focus timer is armed and the TypeError is logged. *)
Theorem showMenu_without_menu (a : App) (w : BrowserWindow) (info : WMInfo) :
  window a = Some w ->
  menus a = [] ->
  let a' := exec (showMenu_settled (Fulfilled info)) a in
  window a' = Some (mkWindow (expanded (target_area a info))
                             (visible w) (window_type w))
  /\ timers a' = preempt_timers a
  /\ next_timer a' = next_timer a
  /\ filter is_show_menu (trace a') = filter is_show_menu (trace a)
  /\ exists before,
       trace a' =
         (trace a ++ before ++
          [ConsoleError ("Failed to show menu: " ++
                         type_error "undefined" "nodes")])%list.
Proof.
  intros Hw Hm. cbv zeta. unfold exec.
  rewrite (showMenu_settled_no_menu a w info Hw Hm).
  cbn [snd window timers next_timer trace]. repeat split.
  - rewrite !filter_app.
    assert (Hp : filter is_show_menu (preempt_effects a) = []).
    { unfold preempt_effects. destruct (hideTimeout a); reflexivity. }
    rewrite Hp. cbn. apply app_nil_r.
  - exists (preempt_effects a ++
            [ ScreenGetDisplayNearestPoint (pointer_of info);
              WindowSetBounds (expanded (target_area a info));
              ConsoleLog (focus_message info);
              SettingsGetMenus ])%list.
    rewrite <- !app_assoc. reflexivity.
Qed.

Lemma showMenu_without_menu_witness :
  let a := with_menus [] (exec (ipc_handler (hide_window 150)) shown) in
  let a' := exec (showMenu_settled (Fulfilled (mkWMInfo 7 9 None))) a in
  pending_hide_timers a <> []
  /\ pending_hide_timers a' = []
  /\ is_visible a' = true
  /\ filter is_show_menu (trace a') = filter is_show_menu (trace a).
Proof.
  cbv zeta.
  destruct (showMenu_without_menu
              (with_menus [] (exec (ipc_handler (hide_window 150)) shown))
              (mkWindow (mkRect 0 0 1921 1081) true "dock")
              (mkWMInfo 7 9 None) eq_refl eq_refl)
    as [H1 [H2 [_ [H3 _]]]].
  split; [vm_compute; discriminate|].
  split; [unfold pending_hide_timers; rewrite H2; reflexivity|].
  split; [unfold is_visible; rewrite H1; reflexivity | exact H3].
Defined.

(** ** Scheduled hides *)

Lemma find_timer_cancel (id : nat) (ts : list Timer) :
  find_timer id (cancel id ts) = None.
Proof.
  unfold find_timer, cancel. induction ts as [|t ts IH]; [reflexivity|].
  cbn [filter]. destruct (Nat.eqb (timer_id t) id) eqn:E; cbn [negb];
    [exact IH|]. cbn [find]. rewrite E. exact IH.
Qed.

Lemma find_timer_app (id : nat) (ts us : list Timer) :
  find_timer id (ts ++ us) =
  match find_timer id ts with
  | Some t => Some t
  | None => find_timer id us
  end.
Proof.
  unfold find_timer. induction ts as [|t ts IH]; [reflexivity|].
  cbn [app find]. destruct (Nat.eqb (timer_id t) id); [reflexivity | exact IH].
Qed.

Lemma find_timer_fresh (n : nat) (ts : list Timer) :
  (forall t, In t ts -> (timer_id t < n)%nat) -> find_timer n ts = None.
Proof.
  intros H. unfold find_timer.
  destruct (find (fun t => Nat.eqb (timer_id t) n) ts) as [t|] eqn:E;
    [|reflexivity].
  apply find_some in E. destruct E as [Hin Heq].
  apply Nat.eqb_eq in Heq. specialize (H t Hin). lia.
Qed.

Lemma cancel_fresh (n : nat) (ts : list Timer) :
  (forall t, In t ts -> (timer_id t < n)%nat) -> cancel n ts = ts.
Proof.
  intros H. unfold cancel. induction ts as [|t ts IH]; [reflexivity|].
  cbn [filter].
  assert (E : Nat.eqb (timer_id t) n = false).
  { apply Nat.eqb_neq. specialize (H t (or_introl eq_refl)). lia. }
  rewrite E. cbn [negb]. f_equal. apply IH.
  intros u Hu. apply H. right. exact Hu.
Qed.

Lemma cancel_app (id : nat) (ts us : list Timer) :
  cancel id (ts ++ us) = (cancel id ts ++ cancel id us)%list.
Proof. unfold cancel. apply filter_app. Qed.

(** X15: a [hide-window] message and the firing of its timer, any time from
    the deadline on, compose to a plain hide: the window is still as visible
    as before during the delay and hidden afterwards, the handle is null
    again and the pending timers are the ones from before the message. *)
Theorem hide_window_then_timer (a : App) (w : BrowserWindow) (delay dt : Z) :
  window a = Some w ->
  timers_fresh a ->
  timeout_after delay <= Z.max 0 dt ->
  let a1 := exec (ipc_handler (hide_window delay)) a in
  let a2 := exec (fire_timer (next_timer a)) (exec (elapse dt) a1) in
  hideTimeout a1 = Some (next_timer a)
  /\ window a1 = Some w
  /\ window a2 = Some (hidden w)
  /\ hideTimeout a2 = None
  /\ timers a2 = timers a
  /\ trace a2 =
       (trace a ++ [SetTimeout (next_timer a) HideCallback delay; WindowHide])%list.
Proof.
  intros Hw Hf Hd. cbv zeta.
  destruct a as [bk win h t ms e ts n c tr]; simpl in Hw; subst.
  unfold timers_fresh in Hf. cbn [timers next_timer] in Hf |- *.
  split; [reflexivity|]. split; [reflexivity|].
  rewrite (fire_hide_timer_exec _ w n (mkTimer n HideCallback (c + timeout_after delay)));
    try reflexivity.
  - cbn [window hideTimeout timers trace]. repeat split.
    + unfold exec, elapse, ipc_handler, bind, setTimeout, modify.
      cbn [fst snd timers with_now with_hideTimeout with_trace with_timers
           next_timer now trace backend window hideTimeout tray menus env].
      rewrite cancel_app, (cancel_fresh n ts Hf). unfold cancel.
      cbn [filter timer_id]. rewrite Nat.eqb_refl. apply app_nil_r.
    + unfold exec, elapse, ipc_handler, bind, setTimeout, modify.
      cbn [fst snd timers with_now with_hideTimeout with_trace with_timers
           next_timer now trace backend window hideTimeout tray menus env].
      rewrite <- app_assoc. reflexivity.
  - unfold exec, elapse, ipc_handler, bind, setTimeout, modify.
    cbn [fst snd timers with_now with_hideTimeout with_trace with_timers
         next_timer now trace backend window hideTimeout tray menus env].
    rewrite find_timer_app, (find_timer_fresh n ts Hf).
    unfold find_timer. cbn [find timer_id]. rewrite Nat.eqb_refl. reflexivity.
  - unfold exec, elapse, ipc_handler, bind, setTimeout, modify.
    cbn [fst snd timers with_now with_hideTimeout with_trace with_timers
         next_timer now trace backend window hideTimeout tray menus env
         timer_deadline].
    lia.
Qed.

Lemma shown_fresh : timers_fresh shown.
Proof.
  destruct (timers_invariant_run
              [RequestShow; WMInfoSettled (Fulfilled (mkWMInfo 100 50 None))]
              started timers_invariant_started) as [_ [H _]];
    [repeat split | exact H].
Qed.

Lemma hide_window_then_timer_witness :
  let w := mkWindow (mkRect 0 0 1921 1081) true "dock" in
  let a1 := exec (ipc_handler (hide_window 150)) shown in
  let a2 := exec (fire_timer (next_timer shown)) (exec (elapse 400) a1) in
  window a1 = Some w
  /\ window a2 = Some (hidden w)
  /\ hideTimeout a2 = None
  /\ timers a2 = timers shown.
Proof.
  cbv zeta.
  destruct (hide_window_then_timer shown
              (mkWindow (mkRect 0 0 1921 1081) true "dock") 150 400 eq_refl
              shown_fresh)
    as [_ [H1 [H2 [H3 [H4 _]]]]].
  - vm_compute. discriminate.
  - split; [exact H1|]. split; [exact H2|]. split; [exact H3 | exact H4].
Defined.

(** What a show transition does to the pending timers, however far it
    gets: the handle's timer is canceled and at most the focus timer, which
    gets the next handle, is added. *)
Lemma showMenu_settled_timers (a : App) (info : WMInfo) :
  let a' := exec (showMenu_settled (Fulfilled info)) a in
  hideTimeout a' = hideTimeout a
  /\ ((timers a' = preempt_timers a /\ next_timer a' = next_timer a)
      \/ (timers a' =
            (preempt_timers a ++
             [mkTimer (next_timer a) FocusCallback (now a + 100)])%list
          /\ next_timer a' = S (next_timer a))).
Proof.
  cbv zeta. destruct a as [bk win h tr0 ms e ts n c tr].
  destruct info as [x y cls]; destruct win as [w|]; destruct ms as [|menu rest];
    destruct h as [id|]; destruct cls as [cl|];
    (split; [reflexivity|]);
    first [ left; split; reflexivity | right; split; reflexivity ].
Qed.

(** X16: a show request that resolves after a [hide-window] message
    preempts it for good: the timer of that message is no longer pending,
    and its handle firing later, whenever that is, changes nothing. *)
Theorem show_preempts_scheduled_hide (a : App) (delay : Z) (info : WMInfo) :
  timers_fresh a ->
  let id := next_timer a in
  let a1 := exec (ipc_handler (hide_window delay)) a in
  let a2 := exec (showMenu_settled (Fulfilled info)) a1 in
  timer_pending id a1 = true
  /\ find_timer id (timers a2) = None
  /\ forall dt,
       exec (fire_timer id) (exec (elapse dt) a2) = exec (elapse dt) a2.
Proof.
  intros Hf. cbv zeta.
  assert (Hnone :
    find_timer (next_timer a)
      (timers (exec (showMenu_settled (Fulfilled info))
                    (exec (ipc_handler (hide_window delay)) a))) = None).
  { destruct (showMenu_settled_timers
                (exec (ipc_handler (hide_window delay)) a) info)
      as [_ [[Ht _]|[Ht _]]]; rewrite Ht;
      destruct a as [bk win h tr0 ms e ts n c tr];
      unfold preempt_timers, exec, ipc_handler, bind, setTimeout, modify;
      cbn [fst snd timers with_hideTimeout with_trace with_timers next_timer
           now trace backend window hideTimeout tray menus env];
      try rewrite find_timer_app; rewrite find_timer_cancel; [reflexivity|].
    unfold find_timer. cbn [find timer_id].
    replace (Nat.eqb (S n) n) with false; [reflexivity|].
    symmetry. apply Nat.eqb_neq. lia. }
  split; [|split; [exact Hnone|]].
  - destruct a as [bk win h tr0 ms e ts n c tr].
    unfold timer_pending, exec, ipc_handler, bind, setTimeout, modify.
    cbn [fst snd timers with_hideTimeout with_trace with_timers next_timer].
    rewrite existsb_app. cbn [existsb timer_id]. rewrite Nat.eqb_refl.
    apply orb_true_r.
  - intros dt.
    set (a2 := exec (showMenu_settled (Fulfilled info))
                    (exec (ipc_handler (hide_window delay)) a)) in *.
    unfold exec at 1. unfold fire_timer, bind, read.
    cbn [fst snd]. unfold exec, elapse, modify.
    cbn [fst snd timers with_now]. rewrite Hnone. reflexivity.
Qed.

Lemma show_preempts_scheduled_hide_witness :
  let a2 := run [Ipc (hide_window 150);
                 WMInfoSettled (Fulfilled (mkWMInfo 30 40 None))] shown in
  is_visible (run [Elapse 1000; TimerFires (next_timer shown)] a2) = true.
Proof.
  cbv zeta. unfold run. cbn [fold_left handle].
  destruct (show_preempts_scheduled_hide shown 150 (mkWMInfo 30 40 None)
              shown_fresh) as [_ [_ H]].
  rewrite (H 1000). reflexivity.
Defined.

(** ** The focus timer and the frame of the handlers *)

(** X17: when the focus timer of a show request fires, [window.focus()] is
    called and nothing else happens: the window record, hidden or not, and
    the hide handle are as before, and only that timer leaves the loop. *)
Theorem focus_timer_only_focuses (a : App) (w : BrowserWindow)
        (id : nat) (t : Timer) :
  window a = Some w ->
  find_timer id (timers a) = Some t ->
  timer_callback t = FocusCallback ->
  timer_deadline t <= now a ->
  exec (fire_timer id) a =
    with_trace (trace a ++ [WindowFocus])
      (with_timers (cancel id (timers a)) (next_timer a) a).
Proof.
  intros Hw Hf Hc Hd.
  destruct a as [bk win h tr0 ms e ts n c tr]; simpl in Hw, Hf, Hd; subst.
  unfold exec, fire_timer, bind, read. cbn [timers now fst snd].
  rewrite Hf. apply Z.leb_le in Hd. rewrite Hd, Hc. reflexivity.
Qed.

Lemma focus_timer_only_focuses_witness :
  let a := run [Ipc (simulate_keys "ctrl+c"); Elapse 100] shown in
  let a' := exec (fire_timer 0) a in
  is_visible a = false
  /\ is_visible a' = false
  /\ trace a' = (trace a ++ [WindowFocus])%list.
Proof.
  cbv zeta.
  rewrite (focus_timer_only_focuses
             (run [Ipc (simulate_keys "ctrl+c"); Elapse 100] shown)
             (mkWindow (mkRect 0 0 1921 1081) false "dock") 0
             (mkTimer 0 FocusCallback 100) eq_refl eq_refl eq_refl).
  - repeat split.
  - vm_compute. discriminate.
Defined.

(** X18: no message of the renderer cancels a timer: whatever was pending
    before a message is pending after it.  Only [hide-window] arms one or
    changes the handle; every other message leaves timers and handle as
    they are. *)
Theorem ipc_never_cancels (a : App) (m : IpcMessage) :
  (forall t, In t (timers a) -> In t (timers (exec (ipc_handler m) a)))
  /\ ((forall delay, m <> hide_window delay) ->
      timers (exec (ipc_handler m) a) = timers a
      /\ hideTimeout (exec (ipc_handler m) a) = hideTimeout a
      /\ next_timer (exec (ipc_handler m) a) = next_timer a).
Proof.
  destruct a as [bk win h tr0 ms e ts n c tr].
  destruct m as [|d|msg|keys|dist|uri];
    try (destruct win as [w|]; destruct bk as [b|];
         (split; [intros t Ht; exact Ht | intros _; repeat split])).
  split.
  - intros t Ht. unfold exec, ipc_handler, bind, setTimeout, modify.
    cbn [fst snd timers with_hideTimeout with_trace with_timers].
    apply in_or_app. left. exact Ht.
  - intros H. exfalso. exact (H d eq_refl).
Qed.

Lemma ipc_never_cancels_witness :
  let a := exec (ipc_handler (hide_window 150)) shown in
  timers (exec (ipc_handler (open_uri "https://kando.menu")) a) = timers a
  /\ hideTimeout (exec (ipc_handler (open_uri "https://kando.menu")) a)
     = hideTimeout a.
Proof.
  cbv zeta.
  destruct (ipc_never_cancels (exec (ipc_handler (hide_window 150)) shown)
              (open_uri "https://kando.menu")) as [_ H].
  destruct H as [H1 [H2 _]]; [intros delay; discriminate|].
  split; [exact H1 | exact H2].
Defined.

Lemma handle_frame (ev : Event) (a : App) :
  menus (exec (handle ev) a) = menus a
  /\ backend (exec (handle ev) a) = backend a
  /\ env (exec (handle ev) a) = env a
  /\ tray (exec (handle ev) a) = tray a.
Proof.
  destruct a as [bk win h tr0 ms e ts n c tr].
  destruct ev as [|[info|reason]|m|id|dt].
  - destruct bk; repeat split.
  - destruct info as [x y cls]; destruct win as [w|]; destruct ms as [|menu rest];
      destruct h as [hid|]; destruct cls as [cl|]; repeat split.
  - repeat split.
  - destruct m; destruct win; destruct bk; repeat split.
  - unfold exec, handle, fire_timer, bind, read. cbn [timers now fst snd].
    destruct (find_timer id ts) as [t|]; [|repeat split].
    destruct (timer_deadline t <=? c); [|repeat split].
    destruct (timer_callback t); destruct win; repeat split.
  - repeat split.
Qed.

(** X19: after startup the orchestrator only reads its configuration: no
    sequence of show requests, renderer messages and timer firings changes
    the menu list, the backend, the environment or the tray. *)
Theorem events_keep_configuration (evs : list Event) (a : App) :
  menus (run evs a) = menus a
  /\ backend (run evs a) = backend a
  /\ env (run evs a) = env a
  /\ tray (run evs a) = tray a.
Proof.
  revert a. induction evs as [|ev evs IH]; intros a; [repeat split|].
  unfold run. cbn [fold_left].
  destruct (IH (exec (handle ev) a)) as [H1 [H2 [H3 H4]]].
  destruct (handle_frame ev a) as [F1 [F2 [F3 F4]]].
  unfold run in H1, H2, H3, H4.
  rewrite H1, H2, H3, H4, F1, F2, F3, F4. repeat split.
Qed.

(** ** Handles, whatever the renderer does *)

Lemma NoDup_ids_fresh (ts : list Timer) (n : nat) (c : TimerCallback) (d : Z) :
  NoDup (map timer_id ts) ->
  (forall t, In t ts -> (timer_id t < n)%nat) ->
  NoDup (map timer_id (ts ++ [mkTimer n c d]))
  /\ (forall t, In t (ts ++ [mkTimer n c d]) -> (timer_id t < S n)%nat).
Proof.
  intros Hnd Hlt. split.
  - rewrite map_app. cbn [map timer_id].
    apply NoDup_app; [exact Hnd | repeat constructor; intros [] |].
    intros x Hx [Hn|[]]. subst x.
    apply in_map_iff in Hx. destruct Hx as [u [Hu Hin]].
    specialize (Hlt u Hin). lia.
  - intros t Hin. apply in_app_or in Hin. destruct Hin as [Hin|[Hin|[]]].
    + specialize (Hlt t Hin). lia.
    + subst t. cbn [timer_id]. lia.
Qed.

Section HandleBookkeeping.

Variables (ts : list Timer) (n : nat) (h : option nat).
Hypothesis ok : handles_ok ts n h.

Lemma handles_ok_filter (p : Timer -> bool) : handles_ok (filter p ts) n h.
Proof.
  destruct ok as [Hnd [Hlt [Hh Hk]]]. repeat split.
  - apply NoDup_ids_filter. exact Hnd.
  - intros t Hin. apply filter_In in Hin. apply Hlt. tauto.
  - exact Hh.
  - intros t Hin. apply filter_In in Hin. apply Hk. tauto.
Qed.

Lemma handles_ok_add_focus (d : Z) :
  handles_ok (ts ++ [mkTimer n FocusCallback d]) (S n) h.
Proof.
  destruct ok as [Hnd [Hlt [Hh Hk]]].
  destruct (NoDup_ids_fresh ts n FocusCallback d Hnd Hlt) as [Hnd' Hlt'].
  split; [exact Hnd'|]. split; [exact Hlt'|]. split.
  - intros id E. specialize (Hh id E). lia.
  - intros t Hin E. apply in_app_or in Hin. destruct Hin as [Hin|[Hin|[]]].
    + apply Hk; assumption.
    + subst t. cbn [timer_id] in E. specialize (Hh n E). lia.
Qed.

Lemma handles_ok_arm_hide (d : Z) :
  handles_ok (ts ++ [mkTimer n HideCallback d]) (S n) (Some n).
Proof.
  destruct ok as [Hnd [Hlt [Hh Hk]]].
  destruct (NoDup_ids_fresh ts n HideCallback d Hnd Hlt) as [Hnd' Hlt'].
  split; [exact Hnd'|]. split; [exact Hlt'|]. split.
  - intros id E. injection E as E. lia.
  - intros t Hin E. apply in_app_or in Hin. destruct Hin as [Hin|[Hin|[]]].
    + injection E as E. specialize (Hlt t Hin). lia.
    + subst t. reflexivity.
Qed.

Lemma handles_ok_null (p : Timer -> bool) : handles_ok (filter p ts) n None.
Proof.
  destruct (handles_ok_filter p) as [Hnd [Hlt _]].
  split; [exact Hnd|]. split; [exact Hlt|].
  split; intros; discriminate.
Qed.

End HandleBookkeeping.

Lemma handles_invariant_step (a : App) (ev : Event) :
  handles_invariant a -> handles_invariant (exec (handle ev) a).
Proof.
  unfold handles_invariant.
  destruct a as [bk win h tr0 ms e ts n c tr].
  cbn [timers next_timer hideTimeout]. intros Hok.
  destruct ev as [|[info|reason]|m|id|dt].
  - destruct bk; exact Hok.
  - destruct info as [x y cls]; destruct win as [w|]; destruct ms as [|menu rest];
      destruct h as [id|]; destruct cls as [cl|]; run_app;
      unfold cancel;
      first [ exact Hok
            | apply handles_ok_filter; exact Hok
            | apply handles_ok_add_focus; exact Hok
            | apply handles_ok_add_focus, handles_ok_filter; exact Hok ].
  - exact Hok.
  - destruct m as [|d|msg|keys|dist|uri];
      try (destruct win; destruct bk; exact Hok).
    apply (handles_ok_arm_hide ts n h Hok).
  - unfold exec, handle, fire_timer, bind, read. cbn [timers now fst snd].
    destruct (find_timer id ts) as [t|] eqn:Hf; [|exact Hok].
    destruct (timer_deadline t <=? c); [|exact Hok].
    destruct (timer_callback t) eqn:Hc; destruct win as [w|]; run_app;
      unfold cancel;
      first [ apply (handles_ok_filter ts n h Hok)
            | apply (handles_ok_null ts n h Hok) ].
  - exact Hok.
Qed.

Lemma handles_invariant_run (evs : list Event) :
  forall a, handles_invariant a -> handles_invariant (run evs a).
Proof.
  induction evs as [|ev evs IH]; intros a Hok; [exact Hok|].
  unfold run. cbn [fold_left]. apply IH, handles_invariant_step, Hok.
Qed.

(** X20: start from an application with no timer and a null handle and let
    any events happen, the renderer hiding as often as it likes.  The
    pending timers then have pairwise distinct handles, and a show
    transition, resolved or rejected, cancels no focus timer: the handle it
    clears never refers to one. *)
Theorem show_never_cancels_focus (a0 : App) (evs : list Event)
        (o : Outcome WMInfo) (t : Timer) :
  timers a0 = [] ->
  hideTimeout a0 = None ->
  let a := run evs a0 in
  NoDup (map timer_id (timers a))
  /\ (In t (timers a) -> timer_callback t = FocusCallback ->
      In t (timers (exec (showMenu_settled o) a))).
Proof.
  intros Ht0 Hh0. cbv zeta.
  assert (H0 : handles_invariant a0).
  { unfold handles_invariant. rewrite Ht0, Hh0.
    split; [constructor|]. split; [intros ? []|].
    split; [intros; discriminate | intros ? []]. }
  pose proof (handles_invariant_run evs a0 H0) as [Hnd [_ [_ Hk]]].
  split; [exact Hnd|]. intros Hin Hc.
  destruct o as [info|reason]; [|exact Hin].
  destruct (showMenu_settled_timers (run evs a0) info) as [_ [[E _]|[E _]]];
    rewrite E; try (apply in_or_app; left);
    unfold preempt_timers;
    (destruct (hideTimeout (run evs a0)) as [id|] eqn:Eh; [|exact Hin]);
    apply filter_In; (split; [exact Hin|]);
    apply negb_true_iff, Nat.eqb_neq; intros Eid;
    rewrite (Hk t Hin (f_equal Some (eq_sym Eid))) in Hc; discriminate Hc.
Qed.

Lemma show_never_cancels_focus_witness :
  let a := run [RequestShow; WMInfoSettled (Fulfilled (mkWMInfo 100 50 None));
                Ipc (hide_window 150); Ipc (hide_window 150)] started in
  In (mkTimer 0 FocusCallback 100)
     (timers (exec (showMenu_settled (Fulfilled (mkWMInfo 5 5 None))) a)).
Proof.
  cbv zeta.
  apply (show_never_cancels_focus started
           [RequestShow; WMInfoSettled (Fulfilled (mkWMInfo 100 50 None));
            Ipc (hide_window 150); Ipc (hide_window 150)]
           (Fulfilled (mkWMInfo 5 5 None)) (mkTimer 0 FocusCallback 100)
           eq_refl eq_refl).
  - vm_compute. left. reflexivity.
  - reflexivity.
Defined.

(** X21: the hide timers pile up: [hide-window] messages handled in a row
    add one pending hide timer each, so after k of them k more are pending
    than before, and the handle refers to the last one only. *)
Theorem hide_requests_pile_up (delays : list Z) (a : App) :
  List.length (pending_hide_timers (run (hide_requests delays) a))
  = (List.length (pending_hide_timers a) + List.length delays)%nat
  /\ (delays <> [] ->
      hideTimeout (run (hide_requests delays) a)
      = Some (next_timer a + List.length delays - 1)%nat)
  /\ next_timer (run (hide_requests delays) a)
     = (next_timer a + List.length delays)%nat.
Proof.
  revert a. induction delays as [|d ds IH]; intros a.
  - cbn. repeat split; try lia. intros H. contradiction.
  - unfold hide_requests, run in *. cbn [map fold_left handle].
    destruct (IH (exec (ipc_handler (hide_window d)) a)) as [H1 [H2 H3]].
    rewrite H1, H3, hide_window_cancels_nothing, length_app.
    assert (En : next_timer (exec (ipc_handler (hide_window d)) a)
                 = S (next_timer a)) by reflexivity.
    rewrite En in *. cbn [List.length]. repeat split; try lia.
    intros _. destruct ds as [|d' ds'].
    + cbn [map fold_left List.length]. cbn. f_equal. lia.
    + rewrite H2 by discriminate. f_equal. cbn [List.length]. lia.
Qed.

Lemma hide_requests_pile_up_witness :
  hideTimeout (run (hide_requests [100; 200; 300]) shown) = Some 3%nat.
Proof.
  destruct (hide_requests_pile_up [100; 200; 300] shown) as [_ [H _]].
  rewrite H by discriminate. reflexivity.
Defined.

(** ** Deltas and positions *)

(** X22: the [move-pointer] handler does not validate its payload.  Deltas
    that are already integers reach [movePointer] unchanged, and so do NaN
    and the infinities. *)
Theorem move_pointer_passes_through (a : App) (b : Backend) (d : Dist) :
  backend a = Some b ->
  (forall q, dist_x d = JS.Fin q -> exists z, q = inject_Z z) ->
  (forall q, dist_y d = JS.Fin q -> exists z, q = inject_Z z) ->
  trace (exec (ipc_handler (move_pointer d)) a)
  = (trace a ++ [BackendMovePointer (dist_x d) (dist_y d)])%list.
Proof.
  intros Hb Hx Hy.
  assert (Hfloor : forall x,
             (forall q, x = JS.Fin q -> exists z, q = inject_Z z) ->
             JS.Math_floor x = x).
  { intros [q| | |] H; try reflexivity.
    destruct (H q eq_refl) as [z Hz]. subst q.
    unfold JS.Math_floor. rewrite Qfloor_Z. reflexivity. }
  unfold exec, ipc_handler, bind, this_backend, emit, modify.
  rewrite Hb. cbn [fst snd trace with_trace].
  rewrite (Hfloor _ Hx), (Hfloor _ Hy). reflexivity.
Qed.

Lemma move_pointer_passes_through_witness :
  trace (exec (ipc_handler (move_pointer (mkDist JS.NaN (JS.Fin (inject_Z (-4))))))
              started)
  = (trace started ++ [BackendMovePointer JS.NaN (JS.Fin (inject_Z (-4)))])%list.
Proof.
  apply (move_pointer_passes_through started ready_backend
           (mkDist JS.NaN (JS.Fin (inject_Z (-4)))) eq_refl).
  - intros q H. discriminate H.
  - intros q H. injection H as H. exists (-4). symmetry. exact H.
Defined.


